(** * Training-diagnosis demo (src/main.py): model and verified properties

    The program is a single Streamlit script.  Its pure helpers become Rocq
    functions, the script body becomes a computation in a small monad that
    threads the session state and the list of things shown to the user, and
    every library the script calls (the Groq client, [json.loads], PyPDF2,
    [random], Faker, pandas) is represented by the outcome it hands back to
    the script.

    Conventions.
    - A Python [str] is the Rocq [string] of its UTF-8 encoding, as the
      literals of the source file are written.  A character is a byte that
      is not a continuation byte together with the continuation bytes after
      it; lengths and slices count characters ([py_chars]), not bytes.
    - Python floats are modelled by exact rationals ([Q]): [round(x, 1)] is
      rounding to the nearest tenth, ties to even, on the exact value.  The
      binary rounding error of a float operation is not represented.
    - Everything random is read from an explicit sequence of raw draws; each
      primitive of [random] consumes one draw and reduces it into its range.
    - Exceptions carry the kind Python raises; the message of a [TypeError],
      [AttributeError] or [re.error] is shortened (no type name, no position). *)

From Stdlib Require Import String Ascii List Bool Arith ZArith NArith.
From Stdlib Require Import QArith Qround Lia Lqa DecimalString Permutation.
Import ListNotations.

Close Scope Q_scope.
Open Scope string_scope.

(* ================================================================= *)
(** * Part I.  The model *)
(* ================================================================= *)

(** ** Python values, exceptions and results *)

(** What [json.loads] can return.  [JNull] is Python's [None]. *)
#[local] Set Warnings "-register-all".
Inductive json : Type :=
| JNull
| JBool (b : bool)
| JNum (q : Q)
| JStr (s : string)
| JArr (items : list json)
| JObj (fields : list (string * json)).
#[local] Set Warnings "register-all".

Inductive py_exn : Type :=
| KeyError (key : string)
| TypeError (msg : string)
| AttributeError (msg : string)
| ValueError (msg : string)
| ZeroDivisionError (msg : string)
| re_error (msg : string)
| LibraryError (msg : string).

(** [str(e)], as interpolated by an f-string. *)
Definition exn_str (e : py_exn) : string :=
  match e with
  | KeyError k => "'" ++ k ++ "'"
  | TypeError m | AttributeError m | ValueError m
  | ZeroDivisionError m | re_error m | LibraryError m => m
  end.

(** Outcome of evaluating a Python expression.  [Unmodelled] is not a Python
    outcome: it marks the places where a library is asked for something this
    model does not describe, and nothing is asserted about the program
    there. *)
Inductive result (A : Type) : Type :=
| Ok (a : A)
| Raise (e : py_exn)
| Unmodelled (what : string).
Arguments Ok {A} a.
Arguments Raise {A} e.
Arguments Unmodelled {A} what.

Definition rbind {A B : Type} (r : result A) (k : A -> result B) : result B :=
  match r with
  | Ok a => k a
  | Raise e => Raise e
  | Unmodelled w => Unmodelled w
  end.

Notation "x <~ r ;; k" := (rbind r (fun x => k))
  (at level 61, r at next level, right associativity).

Definition is_nil {A : Type} (l : list A) : bool :=
  match l with [] => true | _ => false end.

(** Python truth value of a parsed reply ([if diagnosis_result:]). *)
Definition truthy (v : json) : bool :=
  match v with
  | JNull => false
  | JBool b => b
  | JNum q => negb (Qeq_bool q 0)
  | JStr s => negb (s =? "")
  | JArr items => negb (is_nil items)
  | JObj fields => negb (is_nil fields)
  end.

Fixpoint assoc (k : string) (fields : list (string * json)) : option json :=
  match fields with
  | [] => None
  | (k', v) :: rest => if k' =? k then Some v else assoc k rest
  end.

(** [v[key]] for a string key. *)
Definition py_getitem (v : json) (key : string) : result json :=
  match v with
  | JObj fields =>
      match assoc key fields with
      | Some x => Ok x
      | None => Raise (KeyError key)
      end
  | JArr _ => Raise (TypeError "list indices must be integers or slices, not str")
  | JStr _ => Raise (TypeError "string indices must be integers")
  | _ => Raise (TypeError "object is not subscriptable")
  end.

(** [v.get(key, default)]: only dictionaries have the method. *)
Definition py_get (v : json) (key : string) (default : json) : result json :=
  match v with
  | JObj fields =>
      match assoc key fields with
      | Some x => Ok x
      | None => Ok default
      end
  | _ => Raise (AttributeError "object has no attribute 'get'")
  end.

(** A byte of the form 10xxxxxx continues the character begun before it. *)
Definition is_continuation (c : ascii) : bool :=
  let n := nat_of_ascii c in ((128 <=? n) && (n <? 192))%nat.

Definition starts_with_continuation (s : string) : bool :=
  match s with
  | String d _ => is_continuation d
  | EmptyString => false
  end.

(** The characters of a string, in order, each as the bytes that encode it:
    a byte that is not a continuation starts a new character. *)
Fixpoint py_chars (s : string) : list string :=
  match s with
  | EmptyString => []
  | String c s' =>
      if starts_with_continuation s' then
        match py_chars s' with
        | g :: gs => String c g :: gs
        | [] => [String c EmptyString]
        end
      else String c EmptyString :: py_chars s'
  end.

(** [len(s)] of a string: its number of characters. *)
Definition py_str_len (s : string) : nat := List.length (py_chars s).

(** [''.join(l)]. *)
Definition str_join (l : list string) : string := fold_right String.append "" l.

(** [s[:n]]: the first [n] characters. *)
Definition py_slice_to (n : nat) (s : string) : string :=
  str_join (firstn n (py_chars s)).

(** [len(v)]. *)
Definition py_len (v : json) : result Z :=
  match v with
  | JArr items => Ok (Z.of_nat (List.length items))
  | JObj fields => Ok (Z.of_nat (List.length fields))
  | JStr s => Ok (Z.of_nat (py_str_len s))
  | _ => Raise (TypeError "object has no len()")
  end.

Definition chars_of (s : string) : list json := map JStr (py_chars s).

(** The values a [for d in v] loop visits. *)
Definition py_iter (v : json) : result (list json) :=
  match v with
  | JArr items => Ok items
  | JObj fields => Ok (map (fun kv => JStr (fst kv)) fields)
  | JStr s => Ok (chars_of s)
  | _ => Raise (TypeError "object is not iterable")
  end.

(** The number a value contributes to [sum]: numbers, and booleans as 0/1. *)
Definition py_number (v : json) : result Q :=
  match v with
  | JNum q => Ok q
  | JBool b => Ok (if b then 1 else 0)%Q
  | _ => Raise (TypeError "unsupported operand type(s) for +")
  end.

(** [a / n] with [n] an integer length. *)
Definition py_truediv (a : Q) (n : Z) : result Q :=
  if (n =? 0)%Z then Raise (ZeroDivisionError "division by zero")
  else Ok (a / inject_Z n)%Q.

(** Nearest integer, ties to even. *)
Definition round_half_even (q : Q) : Z :=
  let f := Qfloor q in
  match (q - inject_Z f ?= 1 # 2)%Q with
  | Lt => f
  | Gt => (f + 1)%Z
  | Eq => if Z.even f then f else (f + 1)%Z
  end.

(** [round(q, 1)] on the exact value [q].  Python rounds the binary double
    nearest to [q]: when [q] lies within a rounding error of the middle of
    two tenths the two results can differ by one tenth (23/20 gives 1.2 here
    and 1.1 in Python).  Statements about a rounded value are therefore
    bounds, or instances where the double is exact. *)
Definition py_round1 (q : Q) : Q := (round_half_even (q * 10) # 10)%Q.

Definition newline : string := String (ascii_of_nat 10) EmptyString.
Definition dquote : string := String (ascii_of_nat 34) EmptyString.
Definition quoted (s : string) : string := dquote ++ s ++ dquote.

Definition str_of_nat (n : nat) : string := NilEmpty.string_of_uint (Nat.to_uint n).

(** ** The script monad: session state and what the page shows *)

(** [st.session_state]: the script only ever uses the keys ['diagnosis'] and
    ['processed']; [None] is an absent key. *)
Record session_state : Type := {
  diagnosis : option json;
  processed : option bool
}.

(** The request handed to [client.chat.completions.create], together with
    the key the client was built with. *)
Record chat_request : Type := {
  api_key : string;
  model : string;
  system_content : string;
  user_content_sent : string;
  temperature : Q;
  response_format : string
}.

(** One row of the mock directory. *)
Module Expert.
Record t : Type := {
  id : string;
  name : string;
  specialty : string;
  rating : Q;
  hourly_rate : Z;
  email : string
}.
End Expert.

Inductive metric_value : Type :=
| MInt (n : Z)
| MFloat (q : Q).

(** What a run makes visible: calls into Streamlit and the one remote call.
    [st_info text v] shows [text] followed by [str(v)]; charts, tables and
    expert cards carry the data they draw. *)
Inductive ui_event : Type :=
| st_warning (msg : string)
| st_error (msg : string)
| st_markdown (text : string)
| st_subheader (text : string)
| st_metric (label : string) (value : metric_value)
| st_info (text : string) (v : json)
| st_plotly_chart (gaps : list json)
| st_dataframe (plan : list json)
| st_selectbox (label : string) (options : list json)
| st_expander (row : Expert.t)
| groq_request (req : chat_request).

Record world : Type := {
  session : session_state;
  shown : list ui_event
}.

Definition script (A : Type) : Type := world -> result A * world.

Definition ret {A : Type} (a : A) : script A := fun w => (Ok a, w).

Definition bind {A B : Type} (m : script A) (k : A -> script B) : script B :=
  fun w =>
    match m w with
    | (Ok a, w') => k a w'
    | (Raise e, w') => (Raise e, w')
    | (Unmodelled what, w') => (Unmodelled what, w')
    end.

Notation "x <- m ;; k" := (bind m (fun x => k))
  (at level 61, m at next level, right associativity).
Notation "m ;;; k" := (bind m (fun _ => k))
  (at level 61, right associativity).

Definition lift {A : Type} (r : result A) : script A := fun w => (r, w).

Definition emit (e : ui_event) : script unit :=
  fun w => (Ok tt, {| session := session w; shown := (shown w ++ [e])%list |}).

(** [try: body / except Exception as e: handler e]. *)
Definition try_except {A : Type} (body : script A) (handler : py_exn -> script A)
  : script A :=
  fun w =>
    match body w with
    | (Raise e, w') => handler e w'
    | other => other
    end.

Definition session_get_processed : script bool :=
  fun w => (Ok (match processed (session w) with Some b => b | None => false end), w).

Definition session_getitem_diagnosis : script json :=
  fun w =>
    match diagnosis (session w) with
    | Some v => (Ok v, w)
    | None => (Raise (KeyError "diagnosis"), w)
    end.

Definition session_set_diagnosis (v : json) : script unit :=
  fun w => (Ok tt, {| session := {| diagnosis := Some v;
                                    processed := processed (session w) |};
                      shown := shown w |}).

Definition session_set_processed (b : bool) : script unit :=
  fun w => (Ok tt, {| session := {| diagnosis := diagnosis (session w);
                                    processed := Some b |};
                      shown := shown w |}).

(** ** Document Text Extractor *)

(** An uploaded file as PyPDF2 sees it: the reader may refuse the file, and
    each page yields its text or fails. *)
Inductive pdf_file : Type :=
| unreadable (e : py_exn)
| pages (texts : list (result string)).

Fixpoint concat_pages (text : string) (ps : list (result string)) : result string :=
  match ps with
  | [] => Ok text
  | p :: rest => t <~ p ;; concat_pages (text ++ t) rest
  end.

Definition extract_text_from_pdf (uploaded_file : option pdf_file) : result string :=
  match uploaded_file with
  | None => Ok ""
  | Some (unreadable e) => Raise e
  | Some (pages ps) => concat_pages "" ps
  end.

(** The text the caller substitutes when nothing was uploaded. *)
Definition no_pdf_sentinel : string :=
  "No se proporcionó PDF, basar solo en dolores.".

(** ** Diagnosis Requester *)

Definition system_prompt : string :=
  newline ++
  "    Actúa como un Consultor Senior de RRHH experto en Formación Corporativa." ++ newline ++
  "    Tu tarea es analizar los dolores de la empresa y su estrategia para generar un plan de formación." ++ newline ++
  "    " ++ newline ++
  "    IMPORTANTE: Tu respuesta debe ser EXCLUSIVAMENTE un objeto JSON válido con la siguiente estructura, sin texto adicional antes o después:" ++ newline ++
  "    {" ++ newline ++
  "        " ++ quoted "diagnosis_summary" ++ ": " ++ quoted "Resumen ejecutivo del problema detectado (max 50 palabras)" ++ "," ++ newline ++
  "        " ++ quoted "identified_gaps" ++ ": [" ++ newline ++
  "            {" ++ quoted "gap" ++ ": " ++ quoted "Nombre de la brecha" ++ ", " ++ quoted "severity" ++ ": score_1_to_10, " ++ quoted "category" ++ ": " ++ quoted "Tecnica/Blanda/Estrategica" ++ "}" ++ newline ++
  "        ]," ++ newline ++
  "        " ++ quoted "recommended_plan" ++ ": [" ++ newline ++
  "            {" ++ quoted "module" ++ ": " ++ quoted "Nombre del modulo" ++ ", " ++ quoted "duration" ++ ": " ++ quoted "Horas estimadas" ++ ", " ++ quoted "objective" ++ ": " ++ quoted "Objetivo de aprendizaje" ++ "}" ++ newline ++
  "        ]," ++ newline ++
  "        " ++ quoted "recommended_specialties" ++ ": [" ++ quoted "Especialidad1" ++ ", " ++ quoted "Especialidad2" ++ "] " ++ newline ++
  "    }" ++ newline ++
  "    ".

Definition user_content_head : string :=
  newline ++ "    DOLORES/NECESIDADES: ".
Definition user_content_mid : string :=
  newline ++ "    " ++ newline ++ "    CONTEXTO ESTRATÉGICO (PDF): ".
Definition user_content_tail : string :=
  " (texto truncado para eficiencia)" ++ newline ++ "    ".

(** The f-string [user_content]. *)
Definition user_content (pain_points strategy_text : string) : string :=
  user_content_head ++ pain_points ++ user_content_mid
    ++ py_slice_to 2000 strategy_text ++ user_content_tail.

(** What the [try] body of [get_ai_diagnosis] runs into: the remote call
    raises (network, authentication, service), or a completion arrives and
    [json.loads] of its content raises, or [json.loads] returns a value. *)
Inductive remote_outcome : Type :=
| create_raises (e : py_exn)
| loads_raises (e : py_exn)
| loads_returns (v : json).

(** The remote service with [json.loads] applied to its answer. *)
Definition groq_service : Type := chat_request -> remote_outcome.

(** The arguments of [client.chat.completions.create]. *)
Definition diagnosis_request (key pain_points strategy_text : string) : chat_request :=
  {| api_key := key;
     model := "llama-3.1-70b-versatile";
     system_content := system_prompt;
     user_content_sent := user_content pain_points strategy_text;
     temperature := 0.1;
     response_format := "json_object" |}.

(** [Groq(api_key=api_key)] only stores the key; the [try] block starts at
    the remote call, and [except Exception] turns whatever it raises into an
    error message and the result [None]. *)
Definition get_ai_diagnosis (remote : groq_service)
    (api_key pain_points strategy_text : string) : script json :=
  let req := diagnosis_request api_key pain_points strategy_text in
  try_except
    (emit (groq_request req) ;;;
     match remote req with
     | create_raises e => lift (Raise e)
     | loads_raises e => lift (Raise e)
     | loads_returns v => ret v
     end)
    (fun e =>
       emit (st_error ("Error al conectar con Groq o procesar JSON: " ++ exn_str e)) ;;;
       ret JNull).

(** ** The primary action *)

Definition missing_key_warning : string :=
  "⚠️ Por favor ingresa tu API Key de Groq en la barra lateral.".
Definition missing_needs_warning : string :=
  "⚠️ Por favor describe los dolores o necesidades.".

(** Python [not s] on a string. *)
Definition py_not_str (s : string) : bool := s =? "".

(** Line 129: [extract_text_from_pdf(uploaded_file) if uploaded_file else ...];
    an uploaded file object is always true. *)
Definition pdf_text (uploaded_file : option pdf_file) : result string :=
  match uploaded_file with
  | Some f => extract_text_from_pdf (Some f)
  | None => Ok no_pdf_sentinel
  end.

(** Body of [if process_btn:]. *)
Definition process_btn_handler (remote : groq_service)
    (groq_api_key pain_points : string) (uploaded_file : option pdf_file)
  : script unit :=
  if py_not_str groq_api_key then emit (st_warning missing_key_warning)
  else if py_not_str pain_points then emit (st_warning missing_needs_warning)
  else
    text <- lift (pdf_text uploaded_file) ;;
    diagnosis_result <- get_ai_diagnosis remote groq_api_key pain_points text ;;
    if truthy diagnosis_result then
      session_set_diagnosis diagnosis_result ;;;
      session_set_processed true
    else ret tt.

(** ** Randomness *)

(** A random generator: an infinite sequence of raw draws and the number
    already consumed.  Nothing is assumed of the sequence, so a statement
    proved for every [rng] holds for every run. *)
Record rng : Type := {
  raw : nat -> N;
  cursor : nat
}.

Definition next_raw (g : rng) : N * rng :=
  (raw g (cursor g), {| raw := raw g; cursor := S (cursor g) |}).

(** An integer in [0, n). *)
Definition randbelow (n : N) (g : rng) : N * rng :=
  let (x, g') := next_raw g in ((x mod n)%N, g').

(** [random.choice(seq)] on a non-empty sequence. *)
Definition random_choice (seq : list string) (g : rng) : string * rng :=
  let (i, g') := randbelow (N.of_nat (List.length seq)) g in
  (nth (N.to_nat i) seq "", g').

(** [random.random()]: a multiple of 2^-53 in [0, 1). *)
Definition random_random (g : rng) : Q * rng :=
  let (x, g') := next_raw g in
  ((Z.of_N (x mod 2 ^ 53) # 2 ^ 53)%Q, g').

(** [random.uniform(a, b)] is [a + (b - a) * random()]. *)
Definition random_uniform (a b : Q) (g : rng) : Q * rng :=
  let (u, g') := random_random g in
  ((a + (b - a) * u)%Q, g').

(** [random.randint(a, b)] is [a + randbelow(b - a + 1)]. *)
Definition random_randint (a b : Z) (g : rng) : Z * rng :=
  let (x, g') := randbelow (Z.to_N (b - a + 1)) g in
  ((a + Z.of_N x)%Z, g').

(** Faker: the successive strings it hands out. *)
Record faker : Type := {
  fake_text : nat -> string;
  fake_used : nat
}.

Definition fake_next (f : faker) : string * faker :=
  (fake_text f (fake_used f), {| fake_text := fake_text f; fake_used := S (fake_used f) |}).

Definition fake_name : faker -> string * faker := fake_next.
Definition fake_email : faker -> string * faker := fake_next.

(** ** Mock Directory Generator *)

Definition specialties : list string :=
  ["Liderazgo"; "Python & Data"; "Soft Skills"; "Agile"; "Ventas"; "Ciberseguridad"].

(** The loop [for i in range(15)], over the list of indices. *)
Fixpoint generate_rows (range : list nat) (g : rng) (f : faker) : list Expert.t :=
  match range with
  | [] => []
  | i :: rest =>
      let (nm, f1) := fake_name f in
      let (sp, g1) := random_choice specialties g in
      let (u, g2) := random_uniform 3.5 5.0 g1 in
      let (rate, g3) := random_randint 50 200 g2 in
      let (mail, f2) := fake_email f1 in
      {| Expert.id := "EXP-" ++ str_of_nat (i + 100);
         Expert.name := nm;
         Expert.specialty := sp;
         Expert.rating := py_round1 u;
         Expert.hourly_rate := rate;
         Expert.email := mail |} :: generate_rows rest g3 f2
  end.

Definition generate_mock_database (g : rng) (f : faker) : list Expert.t :=
  generate_rows (seq 0 15) g f.

(** ** Regular expressions: the part of Python's [re] the model covers

    [Series.str.contains(pat, case=False, na=False)] leaves [regex] at its
    default [True]: pandas compiles [pat] with [re.IGNORECASE] and keeps the
    rows where [search] finds a match.  The model covers ASCII patterns built
    from literal characters, [.], [|], groups, the greedy quantifiers
    [*], [+], [?] and a backslash before a special character.  Any other
    pattern is [Unmodelled]. *)

Inductive regex : Type :=
| RNull
| REps
| RChar (c : ascii)
| RAny
| RSeq (r1 r2 : regex)
| RAlt (r1 r2 : regex)
| RStar (r : regex).

(** The characters [re] gives a meaning to. *)
Definition SPECIAL_CHARS : string := ".\[{()*+?^$|".

Fixpoint mem_char (c : ascii) (s : string) : bool :=
  match s with
  | EmptyString => false
  | String d s' => Ascii.eqb c d || mem_char c s'
  end.

Definition is_special (c : ascii) : bool := mem_char c SPECIAL_CHARS.
Definition is_repeat (c : ascii) : bool := mem_char c "*+?".

Definition apply_repeat (q : ascii) (r : regex) : regex :=
  if Ascii.eqb q "*" then RStar r
  else if Ascii.eqb q "+" then RSeq r (RStar r)
  else RAlt r REps.

(** An optional quantifier after an atom.  A second quantifier character
    right after it (lazy, possessive, or an error, depending on the Python
    version) is left out of the model. *)
Definition parse_quant (atom : regex) (s : string) : result (regex * string) :=
  match s with
  | String q rest =>
      if is_repeat q then
        match rest with
        | String q2 _ =>
            if mem_char q2 "*+?{" then Unmodelled "regex: stacked quantifier"
            else Ok (apply_repeat q atom, rest)
        | EmptyString => Ok (apply_repeat q atom, rest)
        end
      else Ok (atom, s)
  | EmptyString => Ok (atom, s)
  end.

Fixpoint parse_alt (fuel : nat) (s : string) : result (regex * string) :=
  match fuel with
  | O => Unmodelled "regex: nesting too deep"
  | S fuel' =>
      p <~ parse_seq fuel' s ;;
      match snd p with
      | String "|" rest =>
          p2 <~ parse_alt fuel' rest ;;
          Ok (RAlt (fst p) (fst p2), snd p2)
      | _ => Ok p
      end
  end
with parse_seq (fuel : nat) (s : string) : result (regex * string) :=
  match fuel with
  | O => Unmodelled "regex: nesting too deep"
  | S fuel' =>
      match s with
      | EmptyString => Ok (REps, s)
      | String c s' =>
          if mem_char c "|)" then Ok (REps, s)
          else
            a <~ parse_atom fuel' c s' ;;
            q <~ parse_quant (fst a) (snd a) ;;
            p <~ parse_seq fuel' (snd q) ;;
            Ok (RSeq (fst q) (fst p), snd p)
      end
  end
with parse_atom (fuel : nat) (c : ascii) (s : string) : result (regex * string) :=
  match fuel with
  | O => Unmodelled "regex: nesting too deep"
  | S fuel' =>
      if negb (is_special c) then Ok (RChar c, s)
      else if Ascii.eqb c "." then Ok (RAny, s)
      else if is_repeat c then Raise (re_error "nothing to repeat")
      else if Ascii.eqb c "\" then
        match s with
        | String d s' =>
            if is_special d then Ok (RChar d, s')
            else Unmodelled "regex: escape sequence"
        | EmptyString => Unmodelled "regex: escape sequence"
        end
      else if Ascii.eqb c "(" then
        match s with
        | String "?" _ => Unmodelled "regex: extension group"
        | _ =>
            p <~ parse_alt fuel' s ;;
            match snd p with
            | String ")" rest => Ok (fst p, rest)
            | _ => Raise (re_error "missing ), unterminated subpattern")
            end
        end
      else Unmodelled "regex: anchor, set or counted repeat"
  end.

Definition is_ascii_char (c : ascii) : bool := (nat_of_ascii c <? 128)%nat.

Fixpoint is_ascii_text (s : string) : bool :=
  match s with
  | EmptyString => true
  | String c s' => is_ascii_char c && is_ascii_text s'
  end.

Fixpoint ends_with_backslash (s : string) : bool :=
  match s with
  | EmptyString => false
  | String c EmptyString => Ascii.eqb c "\"
  | String _ s' => ends_with_backslash s'
  end.

(** [re.compile(pat, re.IGNORECASE)] of Python's [re].  Its tokenizer reads
    one token ahead and rejects a pattern that ends in a backslash as soon as
    it meets it, before the parser reports anything else; such patterns are
    left out of the model. *)
Definition re_compile (pat : string) : result regex :=
  if negb (is_ascii_text pat) then Unmodelled "regex: non-ASCII pattern"
  else if ends_with_backslash pat then Unmodelled "regex: pattern ending in a backslash"
  else
    p <~ parse_alt (3 * String.length pat + 4) pat ;;
    match snd p with
    | EmptyString => Ok (fst p)
    | String ")" _ => Raise (re_error "unbalanced parenthesis")
    | _ => Unmodelled "regex: trailing input"
    end.

(** Lower case of an ASCII letter. *)
Definition ascii_lower (c : ascii) : ascii :=
  let n := nat_of_ascii c in
  if ((65 <=? n) && (n <=? 90))%nat then ascii_of_nat (n + 32) else c.

Fixpoint str_lower (s : string) : string :=
  match s with
  | EmptyString => EmptyString
  | String c s' => String (ascii_lower c) (str_lower s')
  end.

(** A literal of the pattern against a character of the text, under
    [re.IGNORECASE]. *)
Definition ci_eqb (a c : ascii) : bool := Ascii.eqb (ascii_lower a) (ascii_lower c).

Fixpoint nullable (r : regex) : bool :=
  match r with
  | RNull | RChar _ | RAny => false
  | REps | RStar _ => true
  | RSeq a b => nullable a && nullable b
  | RAlt a b => nullable a || nullable b
  end.

(** Brzozowski derivative: what is left to match after reading [c]. *)
Fixpoint deriv (c : ascii) (r : regex) : regex :=
  match r with
  | RNull | REps => RNull
  | RChar a => if ci_eqb a c then REps else RNull
  | RAny => if Ascii.eqb c (ascii_of_nat 10) then RNull else REps
  | RSeq a b =>
      if nullable a then RAlt (RSeq (deriv c a) b) (deriv c b)
      else RSeq (deriv c a) b
  | RAlt a b => RAlt (deriv c a) (deriv c b)
  | RStar a => RSeq (deriv c a) (RStar a)
  end.

(** Some prefix of [s] matches [r]. *)
Fixpoint prefix_match (r : regex) (s : string) : bool :=
  nullable r ||
  match s with
  | EmptyString => false
  | String c s' => prefix_match (deriv c r) s'
  end.

(** [r.search(s) is not None]: a match starts at some position of [s]. *)
Fixpoint re_search (r : regex) (s : string) : bool :=
  prefix_match r s ||
  match s with
  | EmptyString => false
  | String _ s' => re_search r s'
  end.

(** The boolean column [series.str.contains(pat, case=False, na=False)].
    Which engine compiles the pattern depends on the pandas version and the
    string type of the column (Python's [re], or RE2 through pyarrow).  On
    the patterns of the model both find the same matches; for a pattern that
    does not compile each raises an exception of its own kind, which the
    model does not fix. *)
Definition str_contains_nocase (pat : string) (series : list string)
  : result (list bool) :=
  if negb (forallb is_ascii_text series) then Unmodelled "str.contains: non-ASCII text"
  else
    match re_compile pat with
    | Ok r => Ok (map (re_search r) series)
    | Raise _ => Unmodelled "str.contains: a pattern that does not compile"
    | Unmodelled what => Unmodelled what
    end.

(** ** Presentation Layer *)

(** The loop inside [sum(d['severity'] for d in ...)], starting from 0. *)
Fixpoint sum_severity (acc : Q) (items : list json) : result Q :=
  match items with
  | [] => Ok acc
  | d :: rest =>
      v <~ py_getitem d "severity" ;;
      q <~ py_number v ;;
      sum_severity (acc + q)%Q rest
  end.

(** The argument of the third metric:
    [round(sum(d['severity'] for d in data['identified_gaps'])
           / len(data['identified_gaps']), 1)]. *)
Definition average_severity (data : json) : result Q :=
  gaps <~ py_getitem data "identified_gaps" ;;
  items <~ py_iter gaps ;;
  total <~ sum_severity 0 items ;;
  gaps' <~ py_getitem data "identified_gaps" ;;
  n <~ py_len gaps' ;;
  mean <~ py_truediv total n ;;
  Ok (py_round1 mean).

Definition is_obj (v : json) : bool :=
  match v with JObj _ => true | _ => false end.

Definition has_key (k : string) (v : json) : bool :=
  match v with
  | JObj fields => match assoc k fields with Some _ => true | None => false end
  | _ => false
  end.

(** The radar chart, drawn [if not df_gaps.empty]. *)
Definition radar_chart (gaps : json) : script unit :=
  match gaps with
  | JArr items =>
      if is_nil items then ret tt
      else if forallb (has_key "gap") items && forallb (has_key "severity") items
      then emit (st_plotly_chart items)
      else lift (Unmodelled "px.line_polar on rows without gap and severity")
  | _ => lift (Unmodelled "pd.DataFrame of a value that is not a list")
  end.

Definition plan_table (plan : json) : script unit :=
  match plan with
  | JArr items =>
      if forallb is_obj items then emit (st_dataframe items)
      else lift (Unmodelled "pd.DataFrame of a list with other than objects")
  | _ => lift (Unmodelled "pd.DataFrame of a value that is not a list")
  end.

(** [df[mask]]. *)
Fixpoint boolean_mask {A : Type} (rows : list A) (mask : list bool) : list A :=
  match rows, mask with
  | r :: rows', b :: mask' =>
      if b then r :: boolean_mask rows' mask' else boolean_mask rows' mask'
  | _, _ => []
  end.

Fixpoint remove_nth {A : Type} (i : nat) (l : list A) : list A :=
  match l, i with
  | [], _ => []
  | _ :: l', O => l'
  | x :: l', S i' => x :: remove_nth i' l'
  end.

(** [n] rows drawn without replacement. *)
Fixpoint sample_rows {A : Type} (n : nat) (g : rng) (rows : list A) : list A :=
  match n with
  | O => []
  | S n' =>
      match rows with
      | [] => []
      | r0 :: _ =>
          let (i, g') := randbelow (N.of_nat (List.length rows)) g in
          nth (N.to_nat i) rows r0 :: sample_rows n' g' (remove_nth (N.to_nat i) rows)
      end
  end.

(** [df.sample(n)]. *)
Definition df_sample {A : Type} (n : nat) (g : rng) (rows : list A) : result (list A) :=
  if (List.length rows <? n)%nat
  then Raise (ValueError
         "Cannot take a larger sample than population when 'replace=False'")
  else Ok (sample_rows n g rows).

Definition json_is_str (s : string) (v : json) : bool :=
  match v with JStr s' => s' =? s | _ => false end.

Definition is_scalar (v : json) : bool :=
  match v with JArr _ | JObj _ => false | _ => true end.

(** The boolean column [series.isin(values)]. *)
Definition isin (series : list string) (values : list json) : result (list bool) :=
  if forallb is_scalar values
  then Ok (map (fun s => existsb (json_is_str s) values) series)
  else Unmodelled "isin: unhashable value"%string.

(** Lines 184-194: the experts shown for the current filter selection. *)
Definition filtered_experts (experts_db : list Expert.t) (np_random : rng)
    (rec_specialties : list json) (selected_filter : json)
  : result (list Expert.t) :=
  if negb (json_is_str "Todos" selected_filter) then
    match selected_filter with
    | JStr pat =>
        mask <~ str_contains_nocase pat (map Expert.specialty experts_db) ;;
        let filtered := boolean_mask experts_db mask in
        if is_nil filtered then df_sample 3 np_random experts_db
        else Ok filtered
    | _ => Unmodelled "str.contains: pattern that is not a string"
    end
  else
    mask <~ isin (map Expert.specialty experts_db) rec_specialties ;;
    let filtered := boolean_mask experts_db mask in
    if is_nil filtered then df_sample 5 np_random experts_db
    else Ok filtered.

Fixpoint emit_all (es : list ui_event) : script unit :=
  match es with
  | [] => ret tt
  | e :: rest => emit e ;;; emit_all rest
  end.

(** Lines 147-152: the three summary metrics and the summary text. *)
Definition summary_metrics (data : json) : script unit :=
  gaps <- lift (py_getitem data "identified_gaps") ;;
  n_gaps <- lift (py_len gaps) ;;
  emit (st_metric "Brechas Identificadas" (MInt n_gaps)) ;;;
  plan <- lift (py_getitem data "recommended_plan") ;;
  n_plan <- lift (py_len plan) ;;
  emit (st_metric "Módulos Sugeridos" (MInt n_plan)) ;;;
  avg <- lift (average_severity data) ;;
  emit (st_metric "Severidad Promedio" (MFloat avg)) ;;;
  summary <- lift (py_getitem data "diagnosis_summary") ;;
  emit (st_info "**Diagnóstico:** " summary).

(** Lines 155-172: the radar chart and the plan table. *)
Definition visualizations (data : json) : script unit :=
  emit (st_markdown "#### Mapa de Brechas (Radar)") ;;;
  gaps <- lift (py_getitem data "identified_gaps") ;;
  radar_chart gaps ;;;
  emit (st_markdown "#### Plan de Formación Sugerido") ;;;
  plan <- lift (py_getitem data "recommended_plan") ;;
  plan_table plan.

(** Lines 175-208: the filter and the expert cards.  [choice] is the index
    the user picked in the select box (0, the default, is the first option). *)
Definition expert_recommendations (data : json) (experts_db : list Expert.t)
    (np_random : rng) (choice : nat) : script unit :=
  emit (st_markdown "---") ;;;
  emit (st_subheader "3. Expertos Recomendados & Agendamiento") ;;;
  rec <- lift (py_get data "recommended_specialties" (JArr [])) ;;
  rec_specialties <- lift (match rec with
                           | JArr l => Ok l
                           | _ => Raise (TypeError "can only concatenate list to list")
                           end) ;;
  let options := JStr "Todos" :: rec_specialties in
  emit (st_selectbox "Filtrar Expertos por Especialidad Sugerida:" options) ;;;
  let selected_filter := nth choice options (JStr "Todos") in
  rows <- lift (filtered_experts experts_db np_random rec_specialties selected_filter) ;;
  emit_all (map st_expander rows).

(** Body of [if st.session_state.get('processed'):]. *)
Definition dashboard (experts_db : list Expert.t) (np_random : rng) (choice : nat)
  : script unit :=
  shown_before <- session_get_processed ;;
  if shown_before then
    data <- session_getitem_diagnosis ;;
    emit (st_markdown "---") ;;;
    emit (st_subheader "2. Dashboard de Resultados") ;;;
    summary_metrics data ;;;
    visualizations data ;;;
    expert_recommendations data experts_db np_random choice
  else ret tt.

(** One run of the script: the button handler when the button was pressed,
    then the dashboard. *)
Definition main (remote : groq_service) (experts_db : list Expert.t) (np_random : rng)
    (groq_api_key pain_points : string) (uploaded_file : option pdf_file)
    (process_btn : bool) (choice : nat) : script unit :=
  (if process_btn
   then process_btn_handler remote groq_api_key pain_points uploaded_file
   else ret tt) ;;;
  dashboard experts_db np_random choice.

Definition run {A : Type} (m : script A) (s : session_state) : result A * world :=
  m {| session := s; shown := [] |}.

(** ** The reply schema the prompt asks for *)

Definition is_str (v : json) : bool :=
  match v with JStr _ => true | _ => false end.

Definition field_is (p : json -> bool) (k : string) (v : json) : bool :=
  match v with
  | JObj fields => match assoc k fields with Some x => p x | None => false end
  | _ => false
  end.

Definition is_severity (v : json) : bool :=
  match v with
  | JNum q => Qle_bool 1 q && Qle_bool q 10
  | _ => false
  end.

Definition is_gap_entry (v : json) : bool :=
  field_is is_str "gap" v && field_is is_severity "severity" v
    && field_is is_str "category" v.

Definition is_plan_module (v : json) : bool :=
  field_is is_str "module" v && field_is is_str "duration" v
    && field_is is_str "objective" v.

Definition is_list_of (p : json -> bool) (v : json) : bool :=
  match v with JArr items => forallb p items | _ => false end.

(** A reply that has the shape written in [system_prompt]. *)
Definition matches_schema (v : json) : bool :=
  field_is is_str "diagnosis_summary" v
    && field_is (is_list_of is_gap_entry) "identified_gaps" v
    && field_is (is_list_of is_plan_module) "recommended_plan" v
    && field_is (is_list_of is_str) "recommended_specialties" v.

(** The list stored under [k] in a reply (empty when there is none). *)
Definition reply_list (k : string) (v : json) : list json :=
  match py_getitem v k with
  | Ok (JArr items) => items
  | _ => []
  end.

(** ** Reading a run *)

Definition is_request (e : ui_event) : bool :=
  match e with groq_request _ => true | _ => false end.

Definition is_warning (e : ui_event) : bool :=
  match e with st_warning _ => true | _ => false end.

Definition is_error (e : ui_event) : bool :=
  match e with st_error _ => true | _ => false end.

(** The example reply of the end-to-end scenario. *)
Definition example_reply : json :=
  JObj [("diagnosis_summary", JStr "...");
        ("identified_gaps",
           JArr [JObj [("gap", JStr "Leadership"); ("severity", JNum 7);
                       ("category", JStr "Blanda")]]);
        ("recommended_plan",
           JArr [JObj [("module", JStr "Leadership 101"); ("duration", JStr "4h");
                       ("objective", JStr "...")]]);
        ("recommended_specialties", JArr [JStr "Liderazgo"])].

Definition fresh_session : session_state :=
  {| diagnosis := None; processed := None |}.

Definition cached (v : json) : session_state :=
  {| diagnosis := Some v; processed := Some true |}.

(** A fixed source of draws and of Faker strings, for concrete runs. *)
Definition lcg (x : N) : N :=
  ((x * 6364136223846793005 + 1442695040888963407) mod 2 ^ 64)%N.
Definition demo_rng : rng :=
  {| raw := fun n => (Nat.iter n lcg 2024 / 2 ^ 11)%N; cursor := 0 |}.
Definition demo_faker : faker :=
  {| fake_text := fun n => "fake-" ++ str_of_nat n; fake_used := 0 |}.
Definition demo_db : list Expert.t := generate_mock_database demo_rng demo_faker.

(** ** Vocabulary of the properties *)

(** A script is display-only when it leaves the session state alone and only
    appends events that are not remote requests. *)
Definition display_only {A : Type} (m : script A) : Prop :=
  forall w,
    session (snd (m w)) = session w /\
    exists evs, shown (snd (m w)) = (shown w ++ evs)%list /\
                existsb is_request evs = false.

Definition append_shown (w : world) (evs : list ui_event) : world :=
  {| session := session w; shown := (shown w ++ evs)%list |}.

Definition failing_service : groq_service :=
  fun _ => create_raises (LibraryError "Connection error.").

(** A reply that is valid JSON but has none of the fields of the schema. *)
Definition off_schema_reply : json := JObj [("foo", JNum 1)].

(** A reply that matches the schema and reports no gap. *)
Definition empty_gaps_reply : json :=
  JObj [("diagnosis_summary", JStr "Sin brechas relevantes.");
        ("identified_gaps", JArr []);
        ("recommended_plan",
           JArr [JObj [("module", JStr "Leadership 101"); ("duration", JStr "4h");
                       ("objective", JStr "...")]]);
        ("recommended_specialties", JArr [JStr "Liderazgo"])].

Definition drop_field (k : string) (v : json) : json :=
  match v with
  | JObj fields => JObj (filter (fun kv => negb (fst kv =? k)) fields)
  | other => other
  end.

(** A rating the generator can produce: between 3.5 and 5.0, a whole number
    of tenths. *)
Definition rating_ok (r : Q) : Prop :=
  (3.5 <= r)%Q /\ (r <= 5.0)%Q /\ exists k : Z, r = (k # 10)%Q.

(** What every generated row satisfies. *)
Definition expert_ok (e : Expert.t) : Prop :=
  In (Expert.specialty e) specialties /\
  rating_ok (Expert.rating e) /\
  (50 <= Expert.hourly_rate e <= 200)%Z.

(** The specialty of the row is one of the recommended ones. *)
Definition recommended (recs : list string) (e : Expert.t) : bool :=
  existsb (String.eqb (Expert.specialty e)) recs.

(** [hay] starts with [needle], letters compared without regard to case. *)
Fixpoint ci_prefixb (needle hay : string) : bool :=
  match needle, hay with
  | EmptyString, _ => true
  | String a needle', String c hay' => ci_eqb a c && ci_prefixb needle' hay'
  | String _ _, EmptyString => false
  end.

(** The selection in the words of the specification: the specialty field
    contains the chosen string (case-insensitive substring match). *)
Fixpoint spec_contains_nocase (needle hay : string) : bool :=
  ci_prefixb needle hay ||
  match hay with
  | EmptyString => false
  | String _ hay' => spec_contains_nocase needle hay'
  end.

(** The regular expression of a pattern without special characters. *)
Fixpoint literal_regex (p : string) : regex :=
  match p with
  | EmptyString => REps
  | String c p' => RSeq (RChar c) (literal_regex p')
  end.

Fixpoint no_special (p : string) : bool :=
  match p with
  | EmptyString => true
  | String c p' => negb (is_special c) && no_special p'
  end.

(** The language of a regular expression, with literals compared without
    regard to case and [.] standing for any character but a newline. *)
Inductive re_matches : regex -> string -> Prop :=
| M_eps : re_matches REps ""
| M_char (a c : ascii) :
    ci_eqb a c = true -> re_matches (RChar a) (String c "")
| M_any (c : ascii) :
    Ascii.eqb c (ascii_of_nat 10) = false -> re_matches RAny (String c "")
| M_seq (r1 r2 : regex) (s1 s2 : string) :
    re_matches r1 s1 -> re_matches r2 s2 -> re_matches (RSeq r1 r2) (s1 ++ s2)
| M_alt_l (r1 r2 : regex) (s : string) :
    re_matches r1 s -> re_matches (RAlt r1 r2) s
| M_alt_r (r1 r2 : regex) (s : string) :
    re_matches r2 s -> re_matches (RAlt r1 r2) s
| M_star_nil (r : regex) : re_matches (RStar r) ""
| M_star_cons (r : regex) (s1 s2 : string) :
    re_matches r s1 -> re_matches (RStar r) s2 -> re_matches (RStar r) (s1 ++ s2).

(** ** Vocabulary of the further properties *)

(** The events the dashboard may show: neither a warning, nor an error
    message, nor a remote request. *)
Definition is_dashboard_event (e : ui_event) : bool :=
  match e with
  | st_warning _ | st_error _ | groq_request _ => false
  | _ => true
  end.

(** A script that leaves the session state alone and only appends events
    allowed by [allowed]. *)
Definition shows_only {A : Type} (allowed : ui_event -> bool) (m : script A) : Prop :=
  forall w,
    session (snd (m w)) = session w /\
    exists evs, shown (snd (m w)) = (shown w ++ evs)%list /\
                forallb allowed evs = true.

Definition count_requests (evs : list ui_event) : nat :=
  List.length (filter is_request evs).

Definition is_ok {A : Type} (r : result A) : bool :=
  match r with Ok _ => true | _ => false end.

(** What the user does in one run of the script, and what the outside world
    answers during it. *)
Record interaction : Type := {
  i_remote : groq_service;
  i_np_random : rng;
  i_groq_api_key : string;
  i_pain_points : string;
  i_uploaded_file : option pdf_file;
  i_process_btn : bool;
  i_choice : nat
}.

(** The session state one run leaves behind; Streamlit keeps it for the next
    run, also when the run ended in an exception. *)
Definition session_after_run (experts_db : list Expert.t) (s : session_state)
    (i : interaction) : session_state :=
  session (snd (run (main (i_remote i) experts_db (i_np_random i) (i_groq_api_key i)
                       (i_pain_points i) (i_uploaded_file i) (i_process_btn i)
                       (i_choice i)) s)).

(** The session state after a sequence of runs. *)
Definition session_after (experts_db : list Expert.t) (s : session_state)
    (runs : list interaction) : session_state :=
  fold_left (session_after_run experts_db) runs s.

(** The states a session can be in: nothing cached yet, or a truthy reply
    cached with the flag set. *)
Definition session_reachable (s : session_state) : Prop :=
  s = fresh_session \/ exists v, truthy v = true /\ s = cached v.

(** The identifiers of the generated rows. *)
Definition expert_ids : list string :=
  ["EXP-100"; "EXP-101"; "EXP-102"; "EXP-103"; "EXP-104"; "EXP-105"; "EXP-106";
   "EXP-107"; "EXP-108"; "EXP-109"; "EXP-110"; "EXP-111"; "EXP-112"; "EXP-113";
   "EXP-114"].

(* ================================================================= *)
(** * Part II.  Properties *)
(* ================================================================= *)

(** ** Scripts that only display *)

Lemma display_only_ret {A : Type} (a : A) : display_only (ret a).
Proof.
  intro w; split; [reflexivity|].
  exists []; split; [now rewrite app_nil_r | reflexivity].
Qed.

Lemma display_only_lift {A : Type} (r : result A) : display_only (lift r).
Proof.
  intro w; split; [reflexivity|].
  exists []; split; [now rewrite app_nil_r | reflexivity].
Qed.

Lemma display_only_emit (e : ui_event) :
  is_request e = false -> display_only (emit e).
Proof.
  intros He w; split; [reflexivity|].
  exists [e]; split; [reflexivity | now simpl; rewrite He].
Qed.

Lemma display_only_bind {A B : Type} (m : script A) (k : A -> script B) :
  display_only m -> (forall a, display_only (k a)) -> display_only (bind m k).
Proof.
  intros Hm Hk w. unfold bind.
  destruct (Hm w) as [Hs [evs [Hev Hno]]].
  destruct (m w) as [[a | e | what] w1]; simpl in *.
  - destruct (Hk a w1) as [Hs' [evs' [Hev' Hno']]].
    split; [congruence|].
    exists (evs ++ evs')%list. split.
    + now rewrite Hev', Hev, app_assoc.
    + now rewrite existsb_app, Hno, Hno'.
  - split; [assumption | now exists evs].
  - split; [assumption | now exists evs].
Qed.

Lemma display_only_emit_all (es : list ui_event) :
  existsb is_request es = false -> display_only (emit_all es).
Proof.
  induction es as [| e es IH]; simpl; intros H.
  - apply display_only_ret.
  - apply orb_false_iff in H as [He Hes].
    apply display_only_bind; [now apply display_only_emit | intros _; auto].
Qed.

Lemma expanders_are_display (rows : list Expert.t) :
  existsb is_request (map st_expander rows) = false.
Proof. induction rows; simpl; auto. Qed.

Lemma display_only_get_processed : display_only session_get_processed.
Proof.
  intro w; split; [reflexivity|].
  exists []; split; [now rewrite app_nil_r | reflexivity].
Qed.

Lemma display_only_getitem_diagnosis : display_only session_getitem_diagnosis.
Proof.
  intro w; unfold session_getitem_diagnosis.
  destruct (diagnosis (session w)); (split; [reflexivity|]);
    (exists []; split; [now rewrite app_nil_r | reflexivity]).
Qed.

(** One step of a display-only argument, following the shape of the script. *)
Ltac display_step :=
  match goal with
  | |- display_only (bind _ _) => apply display_only_bind; [| intro]
  | |- display_only (ret _) => apply display_only_ret
  | |- display_only (lift _) => apply display_only_lift
  | |- display_only (emit _) => apply display_only_emit; reflexivity
  | |- display_only (emit_all (map st_expander _)) =>
      apply display_only_emit_all, expanders_are_display
  | |- display_only session_get_processed => apply display_only_get_processed
  | |- display_only session_getitem_diagnosis => apply display_only_getitem_diagnosis
  | |- display_only (if ?b then _ else _) => destruct b
  | |- display_only (match ?x with _ => _ end) => destruct x
  end.

Lemma display_only_summary_metrics (data : json) :
  display_only (summary_metrics data).
Proof. unfold summary_metrics; repeat display_step. Qed.

Lemma display_only_visualizations (data : json) :
  display_only (visualizations data).
Proof. unfold visualizations, radar_chart, plan_table; repeat display_step. Qed.

Lemma display_only_expert_recommendations data experts_db np_random choice :
  display_only (expert_recommendations data experts_db np_random choice).
Proof. unfold expert_recommendations; cbv zeta; repeat display_step. Qed.

Lemma display_only_dashboard experts_db np_random choice :
  display_only (dashboard experts_db np_random choice).
Proof.
  unfold dashboard; repeat display_step;
    auto using display_only_summary_metrics, display_only_visualizations,
               display_only_expert_recommendations.
Qed.

(** ** The primary action, case by case *)

Lemma py_not_str_spec (s : string) : py_not_str s = true <-> s = "".
Proof. unfold py_not_str. apply String.eqb_eq. Qed.

Lemma handler_missing_key remote pain_points uploaded_file w :
  process_btn_handler remote "" pain_points uploaded_file w
  = (Ok tt, append_shown w [st_warning missing_key_warning]).
Proof. reflexivity. Qed.

Lemma handler_missing_needs remote groq_api_key uploaded_file w :
  groq_api_key <> "" ->
  process_btn_handler remote groq_api_key "" uploaded_file w
  = (Ok tt, append_shown w [st_warning missing_needs_warning]).
Proof.
  intros Hk. unfold process_btn_handler.
  destruct (py_not_str groq_api_key) eqn:E.
  - apply py_not_str_spec in E. contradiction.
  - reflexivity.
Qed.

(** What the handler does once both inputs are present and the document
    text is available. *)
Lemma handler_request remote groq_api_key pain_points uploaded_file text w :
  groq_api_key <> "" -> pain_points <> "" ->
  pdf_text uploaded_file = Ok text ->
  let req := diagnosis_request groq_api_key pain_points text in
  process_btn_handler remote groq_api_key pain_points uploaded_file w
  = match remote req with
    | create_raises e | loads_raises e =>
        (Ok tt, append_shown w
                  [groq_request req;
                   st_error ("Error al conectar con Groq o procesar JSON: " ++ exn_str e)])
    | loads_returns v =>
        if truthy v
        then (Ok tt, {| session := cached v;
                        shown := (shown w ++ [groq_request req])%list |})
        else (Ok tt, append_shown w [groq_request req])
    end.
Proof.
  intros Hk Hp Ht req. unfold process_btn_handler.
  destruct (py_not_str groq_api_key) eqn:E1;
    [apply py_not_str_spec in E1; contradiction|].
  destruct (py_not_str pain_points) eqn:E2;
    [apply py_not_str_spec in E2; contradiction|].
  unfold bind at 1. unfold lift at 1. rewrite Ht.
  unfold get_ai_diagnosis, try_except, bind, emit, lift, ret. fold req.
  destruct (remote req) as [e | e | v]; simpl.
  - unfold append_shown. simpl. now rewrite <- app_assoc.
  - unfold append_shown. simpl. now rewrite <- app_assoc.
  - destruct (truthy v); reflexivity.
Qed.

(** Without usable document text the handler stops before any request. *)
Lemma handler_no_text remote groq_api_key pain_points uploaded_file w :
  groq_api_key <> "" -> pain_points <> "" ->
  (forall text, pdf_text uploaded_file <> Ok text) ->
  snd (process_btn_handler remote groq_api_key pain_points uploaded_file w) = w.
Proof.
  intros Hk Hp Ht. unfold process_btn_handler.
  destruct (py_not_str groq_api_key) eqn:E1;
    [apply py_not_str_spec in E1; contradiction|].
  destruct (py_not_str pain_points) eqn:E2;
    [apply py_not_str_spec in E2; contradiction|].
  unfold bind at 1. unfold lift at 1.
  destruct (pdf_text uploaded_file) as [t | e | what];
    [exfalso; now apply (Ht t) | reflexivity | reflexivity].
Qed.

(** ** A whole run: handler, then dashboard *)

Lemma in_app_no_request (req : chat_request) (l evs : list ui_event) :
  existsb is_request evs = false ->
  In (groq_request req) (l ++ evs)%list -> In (groq_request req) l.
Proof.
  intros Hno Hin. apply in_app_or in Hin as [H | H]; [assumption|].
  exfalso. assert (existsb is_request evs = true) as Ht.
  { apply existsb_exists. exists (groq_request req). split; [assumption | reflexivity]. }
  congruence.
Qed.

(** The dashboard only adds display events after whatever the handler did. *)
Lemma main_extends_handler remote experts_db np_random key pain_points uploaded_file
    choice w :
  let w1 := snd (process_btn_handler remote key pain_points uploaded_file w) in
  let w2 := snd (main remote experts_db np_random key pain_points uploaded_file
                   true choice w) in
  session w2 = session w1 /\
  exists evs, shown w2 = (shown w1 ++ evs)%list /\ existsb is_request evs = false.
Proof.
  unfold main, bind.
  destruct (process_btn_handler remote key pain_points uploaded_file w)
    as [[[] | e | what] w1]; simpl.
  - apply display_only_dashboard.
  - split; [reflexivity | exists []; now rewrite app_nil_r].
  - split; [reflexivity | exists []; now rewrite app_nil_r].
Qed.

(** When the handler completes, the run continues with the dashboard. *)
Lemma main_after_handler remote experts_db np_random key pain_points uploaded_file
    choice w w1 :
  process_btn_handler remote key pain_points uploaded_file w = (Ok tt, w1) ->
  main remote experts_db np_random key pain_points uploaded_file true choice w
  = dashboard experts_db np_random choice w1.
Proof. intros H. unfold main, bind. now rewrite H. Qed.

(** A request seen in a run was sent by the handler, with both inputs
    present and with the document text the handler computed. *)
Lemma request_in_run remote experts_db np_random key pain_points uploaded_file
    choice s0 req :
  In (groq_request req)
     (shown (snd (run (main remote experts_db np_random key pain_points
                         uploaded_file true choice) s0))) ->
  key <> "" /\ pain_points <> "" /\
  exists text, pdf_text uploaded_file = Ok text /\
               req = diagnosis_request key pain_points text.
Proof.
  unfold run. intros Hin.
  set (w0 := {| session := s0; shown := [] |}) in *.
  destruct (main_extends_handler remote experts_db np_random key pain_points
              uploaded_file choice w0) as [_ [evs [Hsh Hno]]].
  rewrite Hsh in Hin. apply in_app_no_request in Hin; [| assumption].
  clear Hsh Hno evs.
  destruct (String.eqb_spec key "") as [-> | Hk].
  { rewrite handler_missing_key in Hin. simpl in Hin.
    destruct Hin as [H | []]. discriminate. }
  destruct (String.eqb_spec pain_points "") as [-> | Hp].
  { rewrite handler_missing_needs in Hin by assumption. simpl in Hin.
    destruct Hin as [H | []]. discriminate. }
  destruct (pdf_text uploaded_file) as [text | e | what] eqn:Ht.
  - rewrite (handler_request remote key pain_points uploaded_file text w0 Hk Hp Ht)
      in Hin.
    repeat split; try assumption. exists text. split; [reflexivity|].
    destruct (remote (diagnosis_request key pain_points text)) as [e | e | v];
      [| | destruct (truthy v)]; simpl in Hin;
      repeat (destruct Hin as [Hin | Hin]; try discriminate; try contradiction);
      now inversion Hin.
  - rewrite handler_no_text in Hin; [destruct Hin | assumption | assumption |].
    intros t; rewrite Ht; discriminate.
  - rewrite handler_no_text in Hin; [destruct Hin | assumption | assumption |].
    intros t; rewrite Ht; discriminate.
Qed.

(** Conversely, with both inputs present and the document text available,
    the run sends exactly that request. *)
Lemma request_sent_when_inputs_present remote experts_db np_random key pain_points
    uploaded_file choice s0 text :
  key <> "" -> pain_points <> "" -> pdf_text uploaded_file = Ok text ->
  In (groq_request (diagnosis_request key pain_points text))
     (shown (snd (run (main remote experts_db np_random key pain_points
                         uploaded_file true choice) s0))).
Proof.
  intros Hk Hp Ht. unfold run.
  set (w0 := {| session := s0; shown := [] |}).
  destruct (main_extends_handler remote experts_db np_random key pain_points
              uploaded_file choice w0) as [_ [evs [-> _]]].
  apply in_or_app. left.
  rewrite (handler_request remote key pain_points uploaded_file text w0 Hk Hp Ht).
  destruct (remote _) as [e | e | v]; [| | destruct (truthy v)]; simpl; auto.
Qed.

(** ** Claims about the primary action *)

(** C9.  When the primary action is triggered with no credential, or with
    empty needs text, a warning is shown, no remote request is made during
    the run, and the cached result is left as it was. *)
Theorem missing_input_warns_and_sends_nothing
    remote experts_db np_random key pain_points uploaded_file choice s0 :
  key = "" \/ pain_points = "" ->
  let w := snd (run (main remote experts_db np_random key pain_points
                       uploaded_file true choice) s0) in
  existsb is_warning (shown w) = true /\
  existsb is_request (shown w) = false /\
  session w = s0.
Proof.
  intros Hmissing. unfold run.
  set (w0 := {| session := s0; shown := [] |}).
  destruct (main_extends_handler remote experts_db np_random key pain_points
              uploaded_file choice w0) as [Hs [evs [Hsh Hno]]].
  cbv zeta. rewrite Hs, Hsh. clear Hs Hsh.
  assert (exists msg,
             process_btn_handler remote key pain_points uploaded_file w0
             = (Ok tt, append_shown w0 [st_warning msg])) as [msg Hh].
  { destruct (String.eqb_spec key "") as [-> | Hk].
    - exists missing_key_warning. apply handler_missing_key.
    - destruct Hmissing as [? | ->]; [contradiction|].
      exists missing_needs_warning. now apply handler_missing_needs. }
  rewrite Hh. simpl. rewrite Hno. auto.
Qed.

Lemma missing_input_warns_and_sends_nothing_witness :
  ("" = "" \/ "ventas" = "") /\
  let w := snd (run (main (fun _ => loads_returns example_reply) demo_db demo_rng
                       "" "ventas" None true 0) (cached example_reply)) in
  existsb is_warning (shown w) = true /\
  existsb is_request (shown w) = false /\
  session w = cached example_reply.
Proof.
  split; [left; reflexivity|].
  apply (missing_input_warns_and_sends_nothing
           (fun _ => loads_returns example_reply) demo_db demo_rng
           "" "ventas" None 0 (cached example_reply)).
  left; reflexivity.
Defined.

(** C2, as the code has it.  When the request of a run fails because the
    remote call raises or because the reply is not JSON, an error message that
    ends with the text of the exception is shown and the cached result is left
    as it was. *)
Theorem failed_call_shows_error_and_keeps_cache
    remote experts_db np_random key pain_points uploaded_file choice s0 req e :
  let w := snd (run (main remote experts_db np_random key pain_points
                       uploaded_file true choice) s0) in
  In (groq_request req) (shown w) ->
  remote req = create_raises e \/ remote req = loads_raises e ->
  In (st_error ("Error al conectar con Groq o procesar JSON: " ++ exn_str e)) (shown w)
  /\ session w = s0.
Proof.
  cbv zeta. intros Hin Hfail.
  destruct (request_in_run _ _ _ _ _ _ _ _ _ Hin) as [Hk [Hp [text [Ht ->]]]].
  unfold run in *.
  set (w0 := {| session := s0; shown := [] |}) in *.
  destruct (main_extends_handler remote experts_db np_random key pain_points
              uploaded_file choice w0) as [Hs [evs [Hsh _]]].
  rewrite Hs, Hsh.
  rewrite (handler_request remote key pain_points uploaded_file text w0 Hk Hp Ht).
  destruct Hfail as [-> | ->]; simpl; auto.
Qed.

Lemma failed_call_shows_error_and_keeps_cache_witness :
  let req := diagnosis_request "gsk" "ventas" no_pdf_sentinel in
  let w := snd (run (main failing_service demo_db demo_rng "gsk" "ventas" None true 0)
                  (cached example_reply)) in
  In (groq_request req) (shown w) /\
  (failing_service req = create_raises (LibraryError "Connection error.") \/
   failing_service req = loads_raises (LibraryError "Connection error.")) /\
  In (st_error "Error al conectar con Groq o procesar JSON: Connection error.") (shown w)
  /\ session w = cached example_reply.
Proof.
  cbv zeta.
  assert (In (groq_request (diagnosis_request "gsk" "ventas" no_pdf_sentinel))
            (shown (snd (run (main failing_service demo_db demo_rng "gsk" "ventas"
                                None true 0) (cached example_reply))))) as Hin.
  { vm_compute. left. reflexivity. }
  split; [exact Hin|]. split; [left; reflexivity|].
  apply (failed_call_shows_error_and_keeps_cache failing_service demo_db demo_rng
           "gsk" "ventas" None 0 (cached example_reply)
           (diagnosis_request "gsk" "ventas" no_pdf_sentinel)
           (LibraryError "Connection error.") Hin).
  left; reflexivity.
Defined.

(** C2, counterexample.  A reply that does not match the schema is a failed
    request for the claim, yet the run shows no error and replaces the cached
    result. *)
Lemma schema_mismatch_is_cached_silently :
  let remote : groq_service := fun _ => loads_returns off_schema_reply in
  let w := snd (run (main remote demo_db demo_rng "gsk" "ventas" None true 0)
                  (cached example_reply)) in
  matches_schema off_schema_reply = false /\
  existsb is_request (shown w) = true /\
  existsb is_error (shown w) = false /\
  session w = cached off_schema_reply /\
  session w <> cached example_reply.
Proof.
  cbv zeta. repeat split; try (vm_compute; reflexivity).
  vm_compute. discriminate.
Qed.

(** ** What the dashboard shows for a cached reply *)

Lemma display_only_keeps {A : Type} (m : script A) (e : ui_event) (w : world) :
  display_only m -> In e (shown w) -> In e (shown (snd (m w))).
Proof.
  intros Hm Hin. destruct (Hm w) as [_ [evs [-> _]]].
  apply in_or_app. now left.
Qed.

Lemma bind_keeps {A B : Type} (m : script A) (k : A -> script B)
    (e : ui_event) (w : world) :
  (forall a, display_only (k a)) ->
  In e (shown (snd (m w))) -> In e (shown (snd (bind m k w))).
Proof.
  intros Hk Hin. unfold bind.
  destruct (m w) as [[a | x | what] w1]; simpl in *; try assumption.
  now apply display_only_keeps.
Qed.

Lemma bind_emit {B : Type} (e : ui_event) (k : unit -> script B) (w : world) :
  bind (emit e) k w = k tt (append_shown w [e]).
Proof. reflexivity. Qed.

Lemma bind_lift_ok {A B : Type} (a : A) (k : A -> script B) (w : world) :
  bind (lift (Ok a)) k w = k a w.
Proof. reflexivity. Qed.

Lemma bind_get_processed_cached {B : Type} (k : bool -> script B) data evs :
  bind session_get_processed k {| session := cached data; shown := evs |}
  = k true {| session := cached data; shown := evs |}.
Proof. reflexivity. Qed.

Lemma bind_getitem_diagnosis_cached {B : Type} (k : json -> script B) data evs :
  bind session_getitem_diagnosis k {| session := cached data; shown := evs |}
  = k data {| session := cached data; shown := evs |}.
Proof. reflexivity. Qed.

(** Run the first statement of a script whose outcome is known. *)
Ltac script_step :=
  match goal with
  | |- context [bind (lift (Ok ?a)) ?k ?w] => rewrite (bind_lift_ok a k w)
  | |- context [bind (emit ?e) ?k ?w] => rewrite (bind_emit e k w)
  end.

Lemma matches_schema_lists (v : json) :
  matches_schema v = true ->
  py_getitem v "identified_gaps" = Ok (JArr (reply_list "identified_gaps" v)) /\
  py_getitem v "recommended_plan" = Ok (JArr (reply_list "recommended_plan" v)).
Proof.
  unfold matches_schema, reply_list, field_is, py_getitem, is_list_of.
  destruct v as [| | | | | fields]; try discriminate.
  intros H. repeat (apply andb_prop in H as [H ?]).
  destruct (assoc "identified_gaps" fields) as [[]|]; try discriminate.
  destruct (assoc "recommended_plan" fields) as [[]|]; try discriminate.
  split; reflexivity.
Qed.

Lemma matches_schema_truthy (v : json) : matches_schema v = true -> truthy v = true.
Proof.
  destruct v as [| | | | | [| kv fields]]; try discriminate. reflexivity.
Qed.

(** The two count metrics are shown as soon as both lists can be read,
    whatever happens later in the dashboard. *)
Lemma summary_metrics_counts (data : json) (gaps plan : list json) (w : world) :
  py_getitem data "identified_gaps" = Ok (JArr gaps) ->
  py_getitem data "recommended_plan" = Ok (JArr plan) ->
  let w' := snd (summary_metrics data w) in
  In (st_metric "Brechas Identificadas" (MInt (Z.of_nat (List.length gaps)))) (shown w')
  /\ In (st_metric "Módulos Sugeridos" (MInt (Z.of_nat (List.length plan)))) (shown w').
Proof.
  intros Hg Hp. cbv zeta. unfold summary_metrics. rewrite Hg, Hp.
  repeat (script_step; simpl py_len).
  split; (apply display_only_keeps; [repeat display_step|]);
    unfold append_shown; simpl; rewrite <- app_assoc; apply in_or_app; right; simpl; auto.
Qed.

Lemma dashboard_counts experts_db np_random choice (data : json)
    (gaps plan : list json) (evs : list ui_event) :
  py_getitem data "identified_gaps" = Ok (JArr gaps) ->
  py_getitem data "recommended_plan" = Ok (JArr plan) ->
  let w' := snd (dashboard experts_db np_random choice
                   {| session := cached data; shown := evs |}) in
  In (st_metric "Brechas Identificadas" (MInt (Z.of_nat (List.length gaps)))) (shown w')
  /\ In (st_metric "Módulos Sugeridos" (MInt (Z.of_nat (List.length plan)))) (shown w').
Proof.
  intros Hg Hp. cbv zeta. unfold dashboard.
  rewrite bind_get_processed_cached, bind_getitem_diagnosis_cached.
  do 2 script_step.
  destruct (summary_metrics_counts data gaps plan
              (append_shown (append_shown {| session := cached data; shown := evs |}
                               [st_markdown "---"])
                 [st_subheader "2. Dashboard de Resultados"]) Hg Hp) as [H1 H2].
  split; (apply bind_keeps;
          [intro; apply display_only_bind;
           [apply display_only_visualizations
           | intro; apply display_only_expert_recommendations]
          | assumption]).
Qed.

(** C3.  For non-empty needs text and any credential: when the remote call of
    the run succeeds with a reply that matches the schema, the reply is the
    cached result after the run and the dashboard shows, as gap count and as
    module count, the lengths of the two lists of the reply. *)
Theorem successful_reply_is_cached_and_counted
    remote experts_db np_random key pain_points uploaded_file choice s0 req reply :
  let w := snd (run (main remote experts_db np_random key pain_points
                       uploaded_file true choice) s0) in
  pain_points <> "" ->
  In (groq_request req) (shown w) ->
  remote req = loads_returns reply ->
  matches_schema reply = true ->
  session w = cached reply /\
  In (st_metric "Brechas Identificadas"
        (MInt (Z.of_nat (List.length (reply_list "identified_gaps" reply))))) (shown w) /\
  In (st_metric "Módulos Sugeridos"
        (MInt (Z.of_nat (List.length (reply_list "recommended_plan" reply))))) (shown w).
Proof.
  cbv zeta. intros _ Hin Hreply Hschema.
  destruct (request_in_run _ _ _ _ _ _ _ _ _ Hin) as [Hk [Hp [text [Ht ->]]]].
  unfold run in *.
  set (w0 := {| session := s0; shown := [] |}) in *.
  pose proof (handler_request remote key pain_points uploaded_file text w0 Hk Hp Ht)
    as Hh.
  cbv zeta in Hh. rewrite Hreply, (matches_schema_truthy _ Hschema) in Hh.
  rewrite (main_after_handler _ _ _ _ _ _ _ _ _ Hh).
  destruct (matches_schema_lists reply Hschema) as [Hg Hpl].
  split.
  - now rewrite (proj1 (display_only_dashboard experts_db np_random choice _)).
  - now apply dashboard_counts.
Qed.

Lemma successful_reply_is_cached_and_counted_witness :
  let remote : groq_service := fun _ => loads_returns example_reply in
  let req := diagnosis_request "gsk" "sales team weak on leadership" no_pdf_sentinel in
  let w := snd (run (main remote demo_db demo_rng "gsk"
                       "sales team weak on leadership" None true 0) fresh_session) in
  "sales team weak on leadership" <> "" /\
  In (groq_request req) (shown w) /\
  remote req = loads_returns example_reply /\
  matches_schema example_reply = true /\
  session w = cached example_reply /\
  In (st_metric "Brechas Identificadas" (MInt 1)) (shown w) /\
  In (st_metric "Módulos Sugeridos" (MInt 1)) (shown w).
Proof.
  cbv zeta.
  assert ("sales team weak on leadership" <> "") as Hne by discriminate.
  assert (In (groq_request
                (diagnosis_request "gsk" "sales team weak on leadership" no_pdf_sentinel))
            (shown (snd (run (main (fun _ => loads_returns example_reply) demo_db
                                demo_rng "gsk" "sales team weak on leadership"
                                None true 0) fresh_session)))) as Hin.
  { vm_compute. left. reflexivity. }
  split; [exact Hne|]. split; [exact Hin|].
  split; [reflexivity|]. split; [reflexivity|].
  exact (successful_reply_is_cached_and_counted
           (fun _ => loads_returns example_reply) demo_db demo_rng "gsk"
           "sales team weak on leadership" None 0 fresh_session
           (diagnosis_request "gsk" "sales team weak on leadership" no_pdf_sentinel)
           example_reply Hne Hin eq_refl eq_refl).
Defined.

(** The end-to-end scenario of the specification: one gap of severity 7, one
    module; the reply arrives in a first run, and in the next run the user
    has set the filter to the recommended specialty. *)
Example end_to_end_scenario :
  let remote : groq_service := fun _ => loads_returns example_reply in
  let w1 := snd (run (main remote demo_db demo_rng "gsk"
                        "sales team weak on leadership" None true 0) fresh_session) in
  let w2 := snd (run (main remote demo_db demo_rng "gsk"
                        "sales team weak on leadership" None false 1) (session w1)) in
  session w1 = cached example_reply /\
  filter (fun e => match e with st_metric _ _ => true | _ => false end) (shown w2)
  = [st_metric "Brechas Identificadas" (MInt 1);
     st_metric "Módulos Sugeridos" (MInt 1);
     st_metric "Severidad Promedio" (MFloat 7.0)] /\
  filter (fun e => match e with st_expander _ => true | _ => false end) (shown w2)
  = map st_expander
      (filter (fun e => spec_contains_nocase "Liderazgo" (Expert.specialty e)) demo_db).
Proof. cbv zeta. split; [| split]; vm_compute; reflexivity. Qed.

(** ** Document text *)

(** The branch of [extract_text_from_pdf] for an absent document returns
    the empty string; the script never takes it, since the only call (line
    129) is made for an uploaded file. *)
Lemma extractor_returns_empty_string_without_document :
  extract_text_from_pdf None = Ok "" /\
  extract_text_from_pdf None <> Ok no_pdf_sentinel.
Proof. split; [reflexivity | discriminate]. Qed.

(** C6.  When no document is supplied, the extraction step of the handler
    (line 129) yields the fixed sentinel string, which is not the empty
    string, and the request of the run is built from it; the branch of
    [extract_text_from_pdf] that would return the empty string is not
    used. *)
Theorem no_document_request_carries_sentinel
    remote experts_db np_random key pain_points choice s0 :
  key <> "" -> pain_points <> "" ->
  let w := snd (run (main remote experts_db np_random key pain_points
                       None true choice) s0) in
  extract_text_from_pdf None = Ok "" /\
  pdf_text None = Ok no_pdf_sentinel /\
  no_pdf_sentinel <> "" /\
  forall req, In (groq_request req) (shown w) <->
              req = diagnosis_request key pain_points no_pdf_sentinel.
Proof.
  intros Hk Hp. cbv zeta.
  split; [reflexivity|]. split; [reflexivity|]. split; [discriminate|].
  intros req. split.
  - intros Hin.
    destruct (request_in_run _ _ _ _ _ _ _ _ _ Hin) as [_ [_ [text [Ht ->]]]].
    simpl in Ht. now inversion Ht.
  - intros ->. now apply request_sent_when_inputs_present.
Qed.

Lemma no_document_request_carries_sentinel_witness :
  "gsk" <> "" /\ "ventas" <> "" /\
  let w := snd (run (main failing_service demo_db demo_rng "gsk" "ventas"
                       None true 0) fresh_session) in
  extract_text_from_pdf None = Ok "" /\
  pdf_text None = Ok no_pdf_sentinel /\
  no_pdf_sentinel <> "" /\
  forall req, In (groq_request req) (shown w) <->
              req = diagnosis_request "gsk" "ventas" no_pdf_sentinel.
Proof.
  split; [discriminate|]. split; [discriminate|].
  apply (no_document_request_carries_sentinel failing_service demo_db demo_rng
           "gsk" "ventas" 0 fresh_session); discriminate.
Defined.

(** ** Truncation of the document text *)

Lemma append_assoc_str (a b c : string) : (a ++ b) ++ c = a ++ (b ++ c).
Proof. induction a as [| x a IH]; simpl; [reflexivity | now rewrite IH]. Qed.

Lemma str_join_py_chars (s : string) : str_join (py_chars s) = s.
Proof.
  induction s as [| c s IH]; [reflexivity|]. cbn [py_chars].
  destruct (starts_with_continuation s).
  - destruct (py_chars s) as [| g gs].
    + simpl in IH. subst s. reflexivity.
    + unfold str_join in *. simpl in *. now rewrite IH.
  - unfold str_join in *. simpl. now rewrite IH.
Qed.

Lemma str_join_app (a b : list string) :
  str_join (a ++ b)%list = str_join a ++ str_join b.
Proof.
  induction a as [| x a IH]; [reflexivity|].
  unfold str_join in *. simpl. now rewrite IH, append_assoc_str.
Qed.

(** A non-empty run of leading characters starts as the string does. *)
Lemma first_chars_start (s : string) (k : nat) :
  starts_with_continuation (str_join (firstn (S k) (py_chars s)))
  = starts_with_continuation s.
Proof.
  destruct s as [| c s]; [reflexivity|]. cbn [py_chars].
  destruct (starts_with_continuation s).
  - destruct (py_chars s) as [| g gs]; reflexivity.
  - reflexivity.
Qed.

(** Cutting after whole characters and splitting again gives the same
    characters. *)
Lemma py_chars_first_chars (s : string) :
  forall n, py_chars (str_join (firstn n (py_chars s))) = firstn n (py_chars s).
Proof.
  induction s as [| c s IH]; intros n.
  - now destruct n.
  - destruct n as [| n]; [reflexivity|].
    cbn [py_chars].
    destruct (starts_with_continuation s) eqn:Es.
    + destruct (py_chars s) as [| g gs] eqn:Eg.
      * destruct n; reflexivity.
      * specialize (IH (S n)).
        pose proof (first_chars_start s n) as Hst. rewrite Eg, Es in Hst.
        cbn [firstn] in *.
        change (str_join (String c g :: firstn n gs))
          with (String c (str_join (g :: firstn n gs))).
        cbn [py_chars]. rewrite Hst, IH. reflexivity.
    + cbn [firstn].
      change (str_join (String c "" :: firstn n (py_chars s)))
        with (String c (str_join (firstn n (py_chars s)))).
      cbn [py_chars]. rewrite IH.
      destruct n as [| n].
      * reflexivity.
      * now rewrite first_chars_start, Es.
Qed.

Lemma py_slice_to_chars (n : nat) (s : string) :
  py_chars (py_slice_to n s) = firstn n (py_chars s).
Proof. apply py_chars_first_chars. Qed.

Lemma py_slice_to_len (n : nat) (s : string) :
  py_str_len (py_slice_to n s) = Nat.min n (py_str_len s).
Proof. unfold py_str_len. now rewrite py_slice_to_chars, length_firstn. Qed.

Lemma py_slice_to_prefix (n : nat) (s : string) :
  s = py_slice_to n s ++ str_join (skipn n (py_chars s)).
Proof.
  unfold py_slice_to. rewrite <- str_join_app, firstn_skipn.
  symmetry. apply str_join_py_chars.
Qed.

Lemma py_slice_to_short (n : nat) (s : string) :
  py_str_len s <= n -> py_slice_to n s = s.
Proof.
  intros H. unfold py_slice_to. rewrite firstn_all2 by exact H.
  apply str_join_py_chars.
Qed.

(** The characters of two strings put end to end, when the second starts
    with a character of its own. *)
Lemma py_chars_app (a b : string) :
  starts_with_continuation b = false ->
  py_chars (a ++ b) = (py_chars a ++ py_chars b)%list.
Proof.
  intros Hb. induction a as [| c a IH]; [reflexivity|].
  cbn [String.append py_chars]. rewrite IH.
  destruct a as [| d a].
  - cbn [String.append]. rewrite Hb. reflexivity.
  - cbn [String.append starts_with_continuation].
    destruct (is_continuation d); [| reflexivity].
    destruct (py_chars (String d a)) as [| g gs] eqn:E; [| reflexivity].
    exfalso. revert E. cbn [py_chars].
    destruct (starts_with_continuation a); [destruct (py_chars a)|]; discriminate.
Qed.

Lemma py_str_len_app (a b : string) :
  starts_with_continuation b = false ->
  py_str_len (a ++ b) = py_str_len a + py_str_len b.
Proof.
  intros Hb. unfold py_str_len. now rewrite py_chars_app, length_app.
Qed.

Lemma starts_with_continuation_app (a b : string) :
  starts_with_continuation a = false -> starts_with_continuation b = false ->
  starts_with_continuation (a ++ b) = false.
Proof. destruct a; simpl; auto. Qed.

Fixpoint str_repeat (n : nat) (s : string) : string :=
  match n with
  | O => EmptyString
  | S n' => s ++ str_repeat n' s
  end.

(** Characters, not bytes: the sentinel has 45 characters in 46 bytes, and
    the cut of fifty copies of it falls after the first 20 characters of the
    45th copy. *)
Example py_slice_to_counts_characters :
  py_chars "añb" = ["a"; "ñ"; "b"] /\
  py_str_len no_pdf_sentinel = 45 /\
  String.length no_pdf_sentinel = 46 /\
  py_slice_to 2000 (str_repeat 50 no_pdf_sentinel)
  = str_repeat 44 no_pdf_sentinel ++ "No se proporcionó PD".
Proof. repeat split; vm_compute; reflexivity. Qed.

(** C8.  The request sent by the Diagnosis Requester contains the needs text
    whole and, of the document text, its first 2000 characters only: the part
    sent is a prefix of the document, cut between two characters, of
    min(2000, length) characters, and a document of at most 2000 characters
    is sent whole.  So the size of the message is bounded whatever the size
    of the document. *)
Theorem request_truncates_document_text
    (remote : groq_service) (key pain_points strategy_text : string) (w : world) :
  let req := diagnosis_request key pain_points strategy_text in
  let sent := py_slice_to 2000 strategy_text in
  let fixed := py_str_len user_content_head + py_str_len user_content_mid
               + py_str_len user_content_tail in
  In (groq_request req)
     (shown (snd (get_ai_diagnosis remote key pain_points strategy_text w))) /\
  user_content_sent req
    = user_content_head ++ pain_points ++ user_content_mid
        ++ sent ++ user_content_tail /\
  py_chars sent = firstn 2000 (py_chars strategy_text) /\
  strategy_text = sent ++ str_join (skipn 2000 (py_chars strategy_text)) /\
  py_str_len sent = Nat.min 2000 (py_str_len strategy_text) /\
  (py_str_len strategy_text <= 2000 -> sent = strategy_text) /\
  (starts_with_continuation pain_points = false ->
   starts_with_continuation strategy_text = false ->
   py_str_len (user_content_sent req)
   = fixed + py_str_len pain_points + Nat.min 2000 (py_str_len strategy_text) /\
   py_str_len (user_content_sent req) <= fixed + py_str_len pain_points + 2000).
Proof.
  cbv zeta.
  split; [| split; [| split; [| split; [| split; [| split]]]]].
  - unfold get_ai_diagnosis, try_except, bind, emit, lift, ret.
    destruct (remote _) as [e | e | v]; simpl;
      rewrite <- ?app_assoc; apply in_or_app; right; simpl; auto.
  - reflexivity.
  - apply py_slice_to_chars.
  - apply py_slice_to_prefix.
  - apply py_slice_to_len.
  - apply py_slice_to_short.
  - intros Hp Hd.
    assert (starts_with_continuation (py_slice_to 2000 strategy_text) = false) as Hs.
    { unfold py_slice_to. now rewrite first_chars_start. }
    assert (py_str_len (user_content pain_points strategy_text)
            = py_str_len user_content_head + py_str_len user_content_mid
              + py_str_len user_content_tail + py_str_len pain_points
              + Nat.min 2000 (py_str_len strategy_text)) as Hlen.
    { unfold user_content.
      rewrite py_str_len_app
        by (apply starts_with_continuation_app; [exact Hp|];
            apply starts_with_continuation_app; [reflexivity|];
            apply starts_with_continuation_app; [exact Hs | reflexivity]).
      rewrite py_str_len_app
        by (apply starts_with_continuation_app; [reflexivity|];
            apply starts_with_continuation_app; [exact Hs | reflexivity]).
      rewrite py_str_len_app
        by (apply starts_with_continuation_app; [exact Hs | reflexivity]).
      rewrite py_str_len_app by reflexivity.
      rewrite py_slice_to_len. lia. }
    cbn [user_content_sent diagnosis_request]. rewrite Hlen. lia.
Qed.

(** ** The average-severity metric *)

(** Whatever else the cached result holds, an empty gap list makes the
    third metric divide by zero. *)
Lemma average_severity_empty_gaps (data : json) :
  py_getitem data "identified_gaps" = Ok (JArr []) ->
  average_severity data = Raise (ZeroDivisionError "division by zero").
Proof. intros H. unfold average_severity. rewrite H. reflexivity. Qed.

(** A non-empty list of gaps with numeric severities has a mean. *)
Lemma average_severity_example :
  average_severity example_reply = Ok 7.0%Q.
Proof. reflexivity. Qed.

(** C1.  The code at an empty gap list: the reply matches the schema and is
    cached, the radar chart is skipped for it, but the average-severity
    metric raises [ZeroDivisionError]; the run ends there, after the two
    count metrics, and nothing stands in for the third metric. *)
Theorem empty_gap_list_raises_division_error :
  let remote : groq_service := fun _ => loads_returns empty_gaps_reply in
  let r := run (main remote demo_db demo_rng "gsk" "ventas" None true 0)
             fresh_session in
  matches_schema empty_gaps_reply = true /\
  reply_list "identified_gaps" empty_gaps_reply = [] /\
  session (snd r) = cached empty_gaps_reply /\
  average_severity empty_gaps_reply = Raise (ZeroDivisionError "division by zero") /\
  fst r = Raise (ZeroDivisionError "division by zero") /\
  filter (fun e => negb (is_request e)) (shown (snd r))
  = [st_markdown "---"; st_subheader "2. Dashboard de Resultados";
     st_metric "Brechas Identificadas" (MInt 0);
     st_metric "Módulos Sugeridos" (MInt 1)] /\
  forall w, radar_chart (JArr []) w = (Ok tt, w).
Proof.
  cbv zeta.
  split; [vm_compute; reflexivity|].
  split; [vm_compute; reflexivity|].
  split; [vm_compute; reflexivity|].
  split; [vm_compute; reflexivity|].
  split; [vm_compute; reflexivity|].
  split; [vm_compute; reflexivity|].
  reflexivity.
Qed.

(** ** Fields absent from the cached reply *)

(** The three fields read with [data[...]] raise [KeyError] when absent. *)
Lemma summary_metrics_absent_field (data : json) (fields : list (string * json)) w :
  data = JObj fields ->
  assoc "identified_gaps" fields = None ->
  fst (summary_metrics data w) = Raise (KeyError "identified_gaps").
Proof.
  intros -> H. unfold summary_metrics, bind, lift. simpl. now rewrite H.
Qed.

(** C7.  The code at replies that lack one field of the schema: each such
    reply is valid JSON and is cached; the dashboard then stops with an
    unguarded [KeyError] for the summary, the gap list and the plan list, and
    only the recommended-specialty list is read with a default. *)
Theorem absent_field_is_unguarded_lookup :
  let dash v := run (dashboard demo_db demo_rng 0) (cached v) in
  let cached_after v :=
    session (snd (run (process_btn_handler (fun _ => loads_returns v)
                         "gsk" "ventas" None) fresh_session)) in
  cached_after (drop_field "identified_gaps" example_reply)
    = cached (drop_field "identified_gaps" example_reply) /\
  fst (dash (drop_field "identified_gaps" example_reply))
    = Raise (KeyError "identified_gaps") /\
  fst (dash (drop_field "recommended_plan" example_reply))
    = Raise (KeyError "recommended_plan") /\
  fst (dash (drop_field "diagnosis_summary" example_reply))
    = Raise (KeyError "diagnosis_summary") /\
  fst (dash (drop_field "recommended_specialties" example_reply)) = Ok tt /\
  In (st_selectbox "Filtrar Expertos por Especialidad Sugerida:" [JStr "Todos"])
     (shown (snd (dash (drop_field "recommended_specialties" example_reply)))).
Proof.
  cbv zeta.
  split; [vm_compute; reflexivity|].
  split; [vm_compute; reflexivity|].
  split; [vm_compute; reflexivity|].
  split; [vm_compute; reflexivity|].
  split; [vm_compute; reflexivity|].
  vm_compute. do 12 right. left. reflexivity.
Qed.

(** ** Mock Directory Generator *)

Lemma round_half_even_between (q : Q) (a b : Z) :
  (inject_Z a <= q)%Q -> (q <= inject_Z b)%Q ->
  (a <= round_half_even q <= b)%Z.
Proof.
  intros Ha Hb.
  assert (a <= Qfloor q)%Z as Hfa.
  { rewrite <- (Qfloor_Z a). now apply Qfloor_resp_le. }
  assert (Qfloor q <= b)%Z as Hfb.
  { rewrite <- (Qfloor_Z b). now apply Qfloor_resp_le. }
  assert ((1 # 2 <= q - inject_Z (Qfloor q))%Q -> (Qfloor q + 1 <= b)%Z) as Hup.
  { intros Hhalf.
    destruct (Z.eq_dec (Qfloor q) b) as [E | N]; [| lia].
    exfalso. rewrite E in Hhalf.
    generalize dependent (inject_Z b). intros bq Hb Hhalf. lra. }
  unfold round_half_even. cbv zeta.
  destruct (q - inject_Z (Qfloor q) ?= 1 # 2)%Q eqn:C.
  - apply Qeq_alt in C.
    destruct (Z.even (Qfloor q)); [lia|].
    split; [lia|]. apply Hup. rewrite C. apply Qle_refl.
  - lia.
  - apply Qgt_alt in C. split; [lia|]. apply Hup. now apply Qlt_le_weak.
Qed.

Lemma random_random_range (g : rng) :
  (0 <= fst (random_random g))%Q /\ (fst (random_random g) < 1)%Q.
Proof.
  unfold random_random, next_raw. simpl.
  set (x := raw g (cursor g)).
  change (2 ^ 53)%positive with 9007199254740992%positive.
  assert (x mod 9007199254740992 < 9007199254740992)%N as Hlt
    by (apply N.mod_lt; discriminate).
  unfold Qle, Qlt. simpl.
  generalize dependent (x mod 9007199254740992)%N. intros r Hlt. lia.
Qed.

Lemma rounded_uniform_rating (g : rng) :
  rating_ok (py_round1 (fst (random_uniform 3.5 5.0 g))).
Proof.
  unfold random_uniform.
  destruct (random_random_range g) as [H0 H1].
  destruct (random_random g) as [u g']. simpl in *.
  assert (35 <= round_half_even ((3.5 + (5.0 - 3.5) * u) * 10) <= 50)%Z as [Hlo Hhi].
  { apply round_half_even_between.
    - change (inject_Z 35) with 35%Q. lra.
    - change (inject_Z 50) with 50%Q. lra. }
  unfold rating_ok, py_round1. repeat split.
  - unfold Qle; simpl. lia.
  - unfold Qle; simpl. lia.
  - eexists; reflexivity.
Qed.

Lemma random_choice_in_specialties (g : rng) :
  In (fst (random_choice specialties g)) specialties.
Proof.
  unfold random_choice, randbelow, next_raw.
  cbv beta iota zeta delta [fst].
  set (x := raw g (cursor g)).
  apply nth_In.
  change (N.of_nat (List.length specialties)) with 6%N.
  assert (x mod 6 < 6)%N as Hlt by (apply N.mod_lt; discriminate).
  generalize dependent (x mod 6)%N. intros r Hlt. simpl. lia.
Qed.

Lemma random_randint_50_200 (g : rng) :
  (50 <= fst (random_randint 50 200 g) <= 200)%Z.
Proof.
  unfold random_randint, randbelow, next_raw.
  cbv beta iota zeta delta [fst].
  set (x := raw g (cursor g)).
  change (Z.to_N (200 - 50 + 1)) with 151%N.
  assert (x mod 151 < 151)%N as Hlt by (apply N.mod_lt; discriminate).
  generalize dependent (x mod 151)%N. intros r Hlt. lia.
Qed.

Lemma generate_rows_shape (range : list nat) :
  forall g f,
    List.length (generate_rows range g f) = List.length range /\
    Forall expert_ok (generate_rows range g f).
Proof.
  induction range as [| i rest IH]; intros g f.
  - split; [reflexivity | constructor].
  - cbn [generate_rows].
    destruct (fake_name f) as [nm f1].
    pose proof (random_choice_in_specialties g) as Hsp.
    destruct (random_choice specialties g) as [sp g1].
    pose proof (rounded_uniform_rating g1) as Hr.
    destruct (random_uniform 3.5 5.0 g1) as [u g2].
    pose proof (random_randint_50_200 g2) as Hrate.
    destruct (random_randint 50 200 g2) as [rate g3].
    destruct (fake_email f1) as [mail f2].
    destruct (IH g3 f2) as [Hlen Hall].
    split; [cbn [List.length]; now rewrite Hlen|].
    constructor; [| exact Hall].
    split; [exact Hsp | split; [exact Hr | exact Hrate]].
Qed.

(** C10.  For every sequence of random draws and every output of Faker, the
    generator produces exactly 15 rows; in each, the specialty is one of the
    six fixed values, the rating lies between 3.5 and 5.0 and is a whole
    number of tenths, and the hourly rate is an integer between 50 and 200. *)
Theorem mock_database_has_15_bounded_rows (g : rng) (f : faker) :
  List.length (generate_mock_database g f) = 15 /\
  Forall expert_ok (generate_mock_database g f).
Proof.
  unfold generate_mock_database.
  destruct (generate_rows_shape (seq 0 15) g f) as [Hlen Hall].
  split; [now rewrite Hlen | exact Hall].
Qed.

(** ** Sampling without replacement *)

Section Sampling.
Context {A : Type}.

Lemma remove_nth_length (l : list A) (i : nat) :
  i < List.length l -> S (List.length (remove_nth i l)) = List.length l.
Proof.
  revert i; induction l as [| x l IH]; intros i Hi; simpl in *; [lia|].
  destruct i as [| i]; [reflexivity|].
  simpl. rewrite IH by lia. reflexivity.
Qed.

Lemma nth_remove_nth_perm (l : list A) (i : nat) (d : A) :
  i < List.length l -> Permutation (nth i l d :: remove_nth i l) l.
Proof.
  revert i; induction l as [| x l IH]; intros i Hi; simpl in *; [lia|].
  destruct i as [| i]; [apply Permutation_refl|].
  eapply perm_trans; [apply perm_swap|].
  apply perm_skip. apply IH. lia.
Qed.

(** A sample of [n] rows has [n] rows, and together with the rows left
    behind it is a rearrangement of the table: no row is drawn twice. *)
Lemma sample_rows_spec (n : nat) :
  forall (g : rng) (rows : list A),
    n <= List.length rows ->
    List.length (sample_rows n g rows) = n /\
    exists rest, Permutation (sample_rows n g rows ++ rest)%list rows.
Proof.
  induction n as [| n IH]; intros g rows Hn.
  - split; [reflexivity|]. exists rows. apply Permutation_refl.
  - destruct rows as [| r0 rows']; [simpl in Hn; lia|].
    set (rows := r0 :: rows') in *.
    cbn [sample_rows]. fold rows.
    unfold randbelow, next_raw.
    set (i := N.to_nat (raw g (cursor g) mod N.of_nat (List.length rows))).
    assert (i < List.length rows) as Hi.
    { subst i.
      assert (raw g (cursor g) mod N.of_nat (List.length rows)
              < N.of_nat (List.length rows))%N
        by (apply N.mod_lt; subst rows; simpl; lia).
      lia. }
    pose proof (remove_nth_length rows i Hi) as Hlen.
    destruct (IH {| raw := raw g; cursor := S (cursor g) |} (remove_nth i rows))
      as [Hl [rest Hperm]]; [lia|].
    split; [simpl; now rewrite Hl|].
    exists rest. cbn [List.app].
    eapply perm_trans; [apply perm_skip, Hperm|].
    exact (nth_remove_nth_perm rows i r0 Hi).
Qed.

Lemma df_sample_spec (n : nat) (g : rng) (rows : list A) :
  n <= List.length rows ->
  exists sample, df_sample n g rows = Ok sample /\
                 List.length sample = n /\
                 exists rest, Permutation (sample ++ rest)%list rows.
Proof.
  intros Hn. unfold df_sample.
  destruct (Nat.ltb_spec (List.length rows) n) as [Hlt | _]; [lia|].
  exists (sample_rows n g rows). split; [reflexivity|].
  now apply sample_rows_spec.
Qed.

Lemma boolean_mask_map (p : A -> bool) (rows : list A) :
  boolean_mask rows (map p rows) = filter p rows.
Proof.
  induction rows as [| r rows IH]; simpl; [reflexivity|].
  rewrite IH. reflexivity.
Qed.

End Sampling.

Lemma is_nil_spec {A : Type} (l : list A) : is_nil l = true <-> l = [].
Proof. destruct l; simpl; split; intros H; congruence. Qed.

(** ** The filter on "all" *)

Lemma isin_strings (series : list string) (recs : list string) :
  isin series (map JStr recs)
  = Ok (map (fun s => existsb (String.eqb s) recs) series).
Proof.
  unfold isin.
  assert (forallb is_scalar (map JStr recs) = true) as ->.
  { induction recs; simpl; auto. }
  f_equal. apply map_ext. intros s.
  induction recs as [| r recs IH]; simpl; [reflexivity|].
  now rewrite IH, String.eqb_sym.
Qed.

Lemma all_filter_on_any_directory
    (experts_db : list Expert.t) (np_random : rng) (recs : list string) :
  5 <= List.length experts_db ->
  let selection := filter (recommended recs) experts_db in
  exists rows,
    filtered_experts experts_db np_random (map JStr recs) (JStr "Todos") = Ok rows /\
    ((selection <> [] /\ rows = selection) \/
     (selection = [] /\ List.length rows = 5 /\
      exists rest, Permutation (rows ++ rest)%list experts_db)).
Proof.
  intros Hlen selection. unfold filtered_experts.
  change (negb (json_is_str "Todos" (JStr "Todos"))) with false. cbv iota.
  rewrite isin_strings. cbn [rbind].
  rewrite map_map.
  change (map (fun x => existsb (String.eqb (Expert.specialty x)) recs) experts_db)
    with (map (recommended recs) experts_db).
  rewrite boolean_mask_map.
  fold selection.
  destruct selection as [| e sel] eqn:Esel.
  - cbn [is_nil].
    destruct (df_sample_spec 5 np_random experts_db Hlen)
      as [sample [Hs [Hl Hperm]]].
    exists sample. split; [exact Hs|]. right. auto.
  - cbn [is_nil]. exists (e :: sel). split; [reflexivity|].
    left. split; [discriminate | reflexivity].
Qed.

Lemma mock_database_length (g : rng) (f : faker) :
  List.length (generate_mock_database g f) = 15.
Proof. unfold generate_mock_database. now rewrite (proj1 (generate_rows_shape _ g f)). Qed.

(** C5.  With the selection "Todos", over the generated directory, the filter
    returns exactly the rows whose specialty is a member of the recommended
    specialties when there is such a row; when there is none it returns five
    rows drawn without replacement from the whole directory. *)
Theorem all_filter_selects_recommended_or_samples_5
    (g : rng) (f : faker) (np_random : rng) (recs : list string) :
  let experts_db := generate_mock_database g f in
  let selection := filter (recommended recs) experts_db in
  exists rows,
    filtered_experts experts_db np_random (map JStr recs) (JStr "Todos") = Ok rows /\
    ((selection <> [] /\ rows = selection) \/
     (selection = [] /\ List.length rows = 5 /\
      exists rest, Permutation (rows ++ rest)%list experts_db)).
Proof.
  cbv zeta. apply all_filter_on_any_directory.
  rewrite mock_database_length. lia.
Qed.

Example all_filter_on_demo_directory :
  filtered_experts demo_db demo_rng [JStr "Liderazgo"; JStr "Marketing"] (JStr "Todos")
  = Ok (filter (fun e => Expert.specialty e =? "Liderazgo") demo_db).
Proof. vm_compute. reflexivity. Qed.

(** ** The filter on a specific specialty *)

(** ** The matcher against the language of a regular expression *)

Lemma str_app_nil_inv (a b : string) : a ++ b = "" -> a = "" /\ b = "".
Proof. destruct a; simpl; intros H; [auto | discriminate]. Qed.

Lemma str_app_assoc (a b c : string) : (a ++ b) ++ c = a ++ (b ++ c).
Proof. induction a as [| x a IH]; simpl; [reflexivity | now rewrite IH]. Qed.

Lemma str_app_nil_r (a : string) : a ++ "" = a.
Proof. induction a as [| x a IH]; simpl; [reflexivity | now rewrite IH]. Qed.

Lemma nullable_spec (r : regex) : nullable r = true <-> re_matches r "".
Proof.
  induction r as [| | a | | r1 IH1 r2 IH2 | r1 IH1 r2 IH2 | r IH]; simpl.
  - split; [discriminate | intros H; inversion H].
  - split; [constructor | reflexivity].
  - split; [discriminate | intros H; inversion H].
  - split; [discriminate | intros H; inversion H].
  - rewrite andb_true_iff, IH1, IH2. split.
    + intros [H1 H2]. change "" with ("" ++ ""). now constructor.
    + intros H. inversion H; subst.
      match goal with E : _ ++ _ = "" |- _ => apply str_app_nil_inv in E as [-> ->] end.
      auto.
  - rewrite orb_true_iff, IH1, IH2. split.
    + intros [H | H]; [now apply M_alt_l | now apply M_alt_r].
    + intros H. inversion H; subst; auto.
  - split; [constructor | reflexivity].
Qed.

(** A non-empty match of a star starts with a non-empty match of its body. *)
Lemma star_cons_inv (r : regex) (c : ascii) (s : string) :
  re_matches (RStar r) (String c s) ->
  exists s1 s2, s = s1 ++ s2 /\ re_matches r (String c s1) /\ re_matches (RStar r) s2.
Proof.
  intros H. remember (RStar r) as r' eqn:Er. remember (String c s) as t eqn:Et.
  revert s Et.
  induction H as [| | | | | | | r0 s1 s2 H1 _ H2 IH2]; intros u Et; try discriminate.
  inversion Er; subst r0.
  destruct s1 as [| c1 s1].
  - simpl in Et. now apply IH2.
  - simpl in Et. inversion Et; subst. exists s1, s2. auto.
Qed.

Lemma deriv_spec (r : regex) :
  forall c s, re_matches (deriv c r) s <-> re_matches r (String c s).
Proof.
  induction r as [| | a | | r1 IH1 r2 IH2 | r1 IH1 r2 IH2 | r IH]; intros c s; simpl.
  - split; intros H; inversion H.
  - split; intros H; inversion H.
  - destruct (ci_eqb a c) eqn:E; split; intros H; inversion H; subst.
    + now constructor.
    + constructor.
    + congruence.
  - destruct (Ascii.eqb c (ascii_of_nat 10)) eqn:E; split; intros H; inversion H; subst.
    + congruence.
    + now constructor.
    + constructor.
  - assert (re_matches (RSeq (deriv c r1) r2) s
            <-> exists s1 s2, s = s1 ++ s2 /\ re_matches r1 (String c s1)
                              /\ re_matches r2 s2) as Hseq.
    { split.
      - intros H. inversion H; subst. eexists _, _. split; [reflexivity|].
        split; [now apply IH1 | assumption].
      - intros [s1 [s2 [-> [H1 H2]]]]. constructor; [now apply IH1 | assumption]. }
    assert (re_matches (RSeq r1 r2) (String c s)
            <-> (exists s1 s2, s = s1 ++ s2 /\ re_matches r1 (String c s1)
                               /\ re_matches r2 s2)
                \/ (re_matches r1 "" /\ re_matches r2 (String c s))) as Hsplit.
    { split.
      - intros H. inversion H as [| | | ? ? s1 s2 H1 H2 | | | |]; subst.
        match goal with E : _ ++ _ = String c s |- _ =>
          destruct s1 as [| c1 s1]; simpl in E;
          [right; subst; auto | inversion E; subst; left; eexists _, _; eauto]
        end.
      - intros [[s1 [s2 [-> [H1 H2]]]] | [H1 H2]].
        + change (String c (s1 ++ s2)) with (String c s1 ++ s2). now constructor.
        + change (String c s) with ("" ++ String c s). now constructor. }
    rewrite Hsplit. destruct (nullable r1) eqn:N.
    + apply nullable_spec in N. split.
      * intros H. inversion H; subst; [left; now apply Hseq|].
        right. split; [assumption | now apply IH2].
      * intros [H | [_ H]]; [apply M_alt_l; now apply Hseq|].
        apply M_alt_r. now apply IH2.
    + rewrite Hseq. split; [auto|]. intros [H | [H _]]; [assumption|].
      apply nullable_spec in H. congruence.
  - split; intros H; inversion H; subst;
      solve [apply M_alt_l; now apply IH1 | apply M_alt_r; now apply IH2].
  - split.
    + intros H. inversion H as [| | | ? ? s1 s2 H1 H2 | | | |]; subst.
      change (String c (s1 ++ s2)) with (String c s1 ++ s2).
      apply M_star_cons; [now apply IH | assumption].
    + intros H. apply star_cons_inv in H as [s1 [s2 [-> [H1 H2]]]].
      constructor; [now apply IH | assumption].
Qed.

(** [prefix_match] finds exactly the prefixes in the language. *)
Lemma prefix_match_spec (s : string) :
  forall r, prefix_match r s = true
            <-> exists s1 s2, s = s1 ++ s2 /\ re_matches r s1.
Proof.
  induction s as [| c s IH]; intros r; cbn [prefix_match].
  - rewrite orb_false_r, nullable_spec. split.
    + intros H. now exists "", "".
    + intros [s1 [s2 [E H]]]. symmetry in E.
      apply str_app_nil_inv in E as [-> _]. assumption.
  - rewrite orb_true_iff, nullable_spec, IH. split.
    + intros [H | [s1 [s2 [-> H]]]].
      * now exists "", (String c s).
      * exists (String c s1), s2. split; [reflexivity | now apply deriv_spec].
    + intros [[| c1 s1] [s2 [E H]]]; [now left|].
      simpl in E. inversion E; subst. right.
      exists s1, s2. split; [reflexivity | now apply deriv_spec].
Qed.

(** [re_search] answers whether some substring is in the language. *)
Theorem re_search_spec (r : regex) (s : string) :
  re_search r s = true
  <-> exists s0 s1 s2, s = s0 ++ s1 ++ s2 /\ re_matches r s1.
Proof.
  induction s as [| c s IH]; cbn [re_search].
  - rewrite orb_false_r, prefix_match_spec. split.
    + intros [s1 [s2 [E H]]]. now exists "", s1, s2.
    + intros [s0 [s1 [s2 [E H]]]]. symmetry in E.
      apply str_app_nil_inv in E as [-> E].
      apply str_app_nil_inv in E as [-> ->]. now exists "", "".
  - rewrite orb_true_iff, prefix_match_spec, IH. split.
    + intros [[s1 [s2 [E H]]] | [s0 [s1 [s2 [-> H]]]]].
      * now exists "", s1, s2.
      * now exists (String c s0), s1, s2.
    + intros [[| c0 s0] [s1 [s2 [E H]]]].
      * left. now exists s1, s2.
      * simpl in E. inversion E; subst. right. now exists s0, s1, s2.
Qed.

(** ** Patterns without special characters *)

Lemma not_special_not_delimiter (c : ascii) :
  is_special c = false -> mem_char c "|)" = false /\ is_repeat c = false.
Proof.
  unfold is_special, is_repeat, SPECIAL_CHARS. cbn [mem_char].
  intros H. repeat (apply orb_false_iff in H as [? H]).
  split; repeat (apply orb_false_iff; split); assumption.
Qed.

Lemma parse_quant_literal (atom : regex) (p : string) :
  no_special p = true -> parse_quant atom p = Ok (atom, p).
Proof.
  destruct p as [| q rest]; [reflexivity|]. cbn [no_special parse_quant].
  intros H. apply andb_prop in H as [Hq _]. apply negb_true_iff in Hq.
  destruct (not_special_not_delimiter q Hq) as [_ ->]. reflexivity.
Qed.

Lemma parse_seq_literal (p : string) :
  forall fuel, String.length p + 2 <= fuel -> no_special p = true ->
               parse_seq fuel p = Ok (literal_regex p, "").
Proof.
  induction p as [| c p IH]; intros fuel Hfuel Hp.
  - destruct fuel; [simpl in Hfuel; lia | reflexivity].
  - destruct fuel as [| fuel]; [simpl in Hfuel; lia|].
    cbn [String.length] in Hfuel. cbn [no_special] in Hp.
    apply andb_prop in Hp as [Hc Hp]. apply negb_true_iff in Hc.
    destruct (not_special_not_delimiter c Hc) as [Hd _].
    cbn [parse_seq]. rewrite Hd.
    destruct fuel as [| fuel']; [lia|].
    cbn [parse_atom]. rewrite Hc. cbn [negb rbind fst snd].
    rewrite (parse_quant_literal _ _ Hp). cbn [rbind fst snd].
    rewrite (IH (S fuel')) by (assumption || lia).
    reflexivity.
Qed.

Lemma no_special_no_trailing_backslash (p : string) :
  no_special p = true -> ends_with_backslash p = false.
Proof.
  induction p as [| c p IH]; [reflexivity|]. cbn [no_special].
  intros H. apply andb_prop in H as [Hc Hp]. apply negb_true_iff in Hc.
  cbn [ends_with_backslash]. destruct p as [| d p]; [| now apply IH].
  unfold is_special, SPECIAL_CHARS in Hc. cbn [mem_char] in Hc.
  apply orb_false_iff in Hc as [_ Hc]. now apply orb_false_iff in Hc as [Hc _].
Qed.

Lemma no_special_ascii_compiles (p : string) :
  is_ascii_text p = true -> no_special p = true ->
  re_compile p = Ok (literal_regex p).
Proof.
  intros Ha Hp. unfold re_compile. rewrite Ha. cbn [negb].
  rewrite (no_special_no_trailing_backslash p Hp).
  replace (3 * String.length p + 4) with (S (3 * String.length p + 3)) by lia.
  cbn [parse_alt].
  rewrite parse_seq_literal by (assumption || lia).
  reflexivity.
Qed.

Lemma prefix_match_alt (s : string) :
  forall a b, prefix_match (RAlt a b) s = prefix_match a s || prefix_match b s.
Proof.
  induction s as [| c s IH]; intros a b; cbn [prefix_match nullable deriv].
  - now rewrite !orb_false_r.
  - rewrite IH.
    destruct (nullable a), (nullable b), (prefix_match (deriv c a) s),
      (prefix_match (deriv c b) s); reflexivity.
Qed.

Lemma prefix_match_null_seq (r : regex) (s : string) :
  prefix_match (RSeq RNull r) s = false.
Proof. induction s as [| c s IH]; cbn [prefix_match nullable deriv andb orb]; auto. Qed.

Lemma prefix_match_eps_seq (r : regex) (s : string) :
  prefix_match (RSeq REps r) s = prefix_match r s.
Proof.
  destruct s as [| c s]; cbn [prefix_match nullable deriv andb]; [reflexivity|].
  now rewrite prefix_match_alt, prefix_match_null_seq.
Qed.

Lemma prefix_match_literal (p : string) :
  forall s, prefix_match (literal_regex p) s = ci_prefixb p s.
Proof.
  induction p as [| a p IH]; intros s.
  - destruct s; reflexivity.
  - destruct s as [| c s]; [reflexivity|].
    cbn [literal_regex prefix_match nullable deriv andb orb ci_prefixb].
    destruct (ci_eqb a c).
    + now rewrite prefix_match_eps_seq, IH.
    + now rewrite prefix_match_null_seq.
Qed.

Lemma re_search_literal (p s : string) :
  re_search (literal_regex p) s = spec_contains_nocase p s.
Proof.
  induction s as [| c s IH]; cbn [re_search spec_contains_nocase];
    rewrite prefix_match_literal; [reflexivity | now rewrite IH].
Qed.

(** What the code does with a chosen specialty: it keeps the rows in whose
    specialty the compiled pattern finds a match, or draws three rows when
    there is none. *)
Lemma specific_filter_is_regex_search
    (experts_db : list Expert.t) (np_random : rng) (recs : list json)
    (chosen : string) (r : regex) :
  chosen <> "Todos" ->
  re_compile chosen = Ok r ->
  forallb is_ascii_text (map Expert.specialty experts_db) = true ->
  3 <= List.length experts_db ->
  let selection := filter (fun e => re_search r (Expert.specialty e)) experts_db in
  exists rows,
    filtered_experts experts_db np_random recs (JStr chosen) = Ok rows /\
    ((selection <> [] /\ rows = selection) \/
     (selection = [] /\ List.length rows = 3 /\
      exists rest, Permutation (rows ++ rest)%list experts_db)).
Proof.
  intros Hne Hr Hdb Hlen selection. unfold filtered_experts.
  assert (json_is_str "Todos" (JStr chosen) = false) as ->.
  { simpl. now apply String.eqb_neq. }
  cbn [negb]. unfold str_contains_nocase. rewrite Hdb, Hr. cbn [negb rbind].
  rewrite map_map, boolean_mask_map. fold selection.
  destruct selection as [| e sel] eqn:Esel.
  - cbn [is_nil].
    destruct (df_sample_spec 3 np_random experts_db Hlen)
      as [sample [Hs [Hl Hperm]]].
    exists sample. split; [exact Hs|]. right. auto.
  - cbn [is_nil]. exists (e :: sel). split; [reflexivity|].
    left. split; [discriminate | reflexivity].
Qed.

(** Away from the special characters the code does what the specification
    says: for an ASCII choice without special characters, over an ASCII
    directory of at least three rows, the rows returned are those whose
    specialty contains the choice without regard to case, or three rows drawn
    without replacement when there is none. *)
Lemma plain_filter_selects_containing_or_samples_3
    (experts_db : list Expert.t) (np_random : rng) (recs : list json) (chosen : string) :
  chosen <> "Todos" ->
  is_ascii_text chosen = true -> no_special chosen = true ->
  forallb is_ascii_text (map Expert.specialty experts_db) = true ->
  3 <= List.length experts_db ->
  let selection :=
    filter (fun e => spec_contains_nocase chosen (Expert.specialty e)) experts_db in
  exists rows,
    filtered_experts experts_db np_random recs (JStr chosen) = Ok rows /\
    ((selection <> [] /\ rows = selection) \/
     (selection = [] /\ List.length rows = 3 /\
      exists rest, Permutation (rows ++ rest)%list experts_db)).
Proof.
  intros Hne Ha Hp Hdb Hlen selection.
  assert (selection
          = filter (fun e => re_search (literal_regex chosen) (Expert.specialty e))
              experts_db) as ->.
  { apply filter_ext. intros e. symmetry. apply re_search_literal. }
  apply specific_filter_is_regex_search; auto using no_special_ascii_compiles.
Qed.

(** The engine on a few patterns, as Python answers them. *)
Example re_search_examples :
  rbind (re_compile "a.c") (fun r => Ok (re_search r "xABCx")) = Ok true /\
  rbind (re_compile "(a|b)+c") (fun r => Ok (re_search r "zzbac")) = Ok true /\
  rbind (re_compile "ab*c?d") (fun r => Ok (re_search r "abcc")) = Ok false /\
  rbind (re_compile "\.") (fun r => Ok (re_search r "Agile")) = Ok false /\
  rbind (re_compile ".") (fun r => Ok (re_search r "Agile")) = Ok true /\
  re_compile "*a" = Raise (re_error "nothing to repeat") /\
  re_compile "a)" = Raise (re_error "unbalanced parenthesis") /\
  re_compile "(a" = Raise (re_error "missing ), unterminated subpattern").
Proof. repeat split; vm_compute; reflexivity. Qed.

Example plain_filter_on_demo_directory :
  filtered_experts demo_db demo_rng [JStr "Liderazgo"] (JStr "liDer")
  = Ok (filter (fun e => Expert.specialty e =? "Liderazgo") demo_db).
Proof. vm_compute. reflexivity. Qed.

(** C4.  The code at a chosen specialty that contains a character special to
    regular expressions.  No specialty of the directory contains the string
    [Ventas|Liderazgo], so the specified result is a sample of three rows; the code
    reads the string as a pattern with two alternatives and returns the seven
    rows whose specialty contains one or the other. *)
Theorem chosen_specialty_is_read_as_regex :
  let chosen := "Ventas|Liderazgo" in
  let rows := filtered_experts demo_db demo_rng [JStr chosen] (JStr chosen) in
  is_ascii_text chosen = true /\
  filter (fun e => spec_contains_nocase chosen (Expert.specialty e)) demo_db = [] /\
  rows = Ok (filter (fun e => spec_contains_nocase "Ventas" (Expert.specialty e)
                              || spec_contains_nocase "Liderazgo" (Expert.specialty e))
               demo_db) /\
  rbind rows (fun l => Ok (List.length l)) = Ok 7.
Proof.
  cbv zeta.
  split; [vm_compute; reflexivity|].
  split; [vm_compute; reflexivity|].
  split; vm_compute; reflexivity.
Qed.

(* ================================================================= *)
(** * Part III.  Further properties of the code *)
(* ================================================================= *)

(** ** Document Text Extractor on a document *)

Lemma concat_pages_all_ok (texts : list string) :
  forall acc, concat_pages acc (map Ok texts)
              = Ok (acc ++ fold_right String.append "" texts).
Proof.
  induction texts as [| t texts IH]; intros acc; simpl.
  - now rewrite str_app_nil_r.
  - now rewrite IH, str_app_assoc.
Qed.

Lemma concat_pages_first_failure (pre : list string) (e : py_exn)
    (rest : list (result string)) :
  forall acc, concat_pages acc (map Ok pre ++ Raise e :: rest)%list = Raise e.
Proof.
  induction pre as [| t pre IH]; intros acc; simpl; [reflexivity | apply IH].
Qed.

(** X1.  When every page yields its text, the extractor returns the texts
    of the pages joined in page order, with nothing between them; a document
    without pages gives the empty string. *)
Theorem extract_joins_pages_in_order (texts : list string) :
  extract_text_from_pdf (Some (pages (map Ok texts)))
  = Ok (fold_right String.append "" texts) /\
  extract_text_from_pdf (Some (pages [])) = Ok "".
Proof.
  split; [| reflexivity]. simpl. now rewrite concat_pages_all_ok.
Qed.

(** X2.  The extractor has no error handling of its own: the exception of
    the first page that fails is raised, whatever the pages before it yielded
    and whatever comes after it, and so is the exception of a reader that
    refuses the file. *)
Theorem extract_propagates_first_failure (pre : list string) (e : py_exn)
    (rest : list (result string)) :
  extract_text_from_pdf (Some (pages (map Ok pre ++ Raise e :: rest)%list)) = Raise e /\
  extract_text_from_pdf (Some (unreadable e)) = Raise e.
Proof.
  split; [| reflexivity]. simpl. apply concat_pages_first_failure.
Qed.

(** ** The primary action: remaining cases *)

(** X3.  Extraction runs outside any [try]: when it raises, the run ends with
    that exception before anything is shown; no request is sent, the session
    state is untouched and the dashboard of a result cached earlier is not
    rendered in that run. *)
Theorem extraction_failure_aborts_run
    remote experts_db np_random key pain_points file choice s0 e :
  key <> "" -> pain_points <> "" ->
  extract_text_from_pdf (Some file) = Raise e ->
  run (main remote experts_db np_random key pain_points (Some file) true choice) s0
  = (Raise e, {| session := s0; shown := [] |}).
Proof.
  intros Hk Hp He. unfold run, main, process_btn_handler.
  destruct (py_not_str key) eqn:E1;
    [apply py_not_str_spec in E1; contradiction|].
  destruct (py_not_str pain_points) eqn:E2;
    [apply py_not_str_spec in E2; contradiction|].
  unfold pdf_text. rewrite He. reflexivity.
Qed.

Lemma extraction_failure_aborts_run_witness :
  let file := pages [Ok "Plan 2025"; Raise (LibraryError "cannot decode page")] in
  "gsk" <> "" /\ "ventas" <> "" /\
  extract_text_from_pdf (Some file) = Raise (LibraryError "cannot decode page") /\
  run (main failing_service demo_db demo_rng "gsk" "ventas" (Some file) true 0)
      (cached example_reply)
  = (Raise (LibraryError "cannot decode page"),
     {| session := cached example_reply; shown := [] |}).
Proof.
  cbv zeta.
  assert ("gsk" <> "") as Hk by discriminate.
  assert ("ventas" <> "") as Hp by discriminate.
  split; [exact Hk|]. split; [exact Hp|]. split; [reflexivity|].
  exact (extraction_failure_aborts_run failing_service demo_db demo_rng "gsk" "ventas"
           (pages [Ok "Plan 2025"; Raise (LibraryError "cannot decode page")]) 0
           (cached example_reply) (LibraryError "cannot decode page") Hk Hp eq_refl).
Defined.

(** X4.  [get_ai_diagnosis] never lets an exception out and never touches
    the session state.  It sends one request; when the remote call or the
    parsing raises it shows one error message ending with the text of the
    exception and returns [None]; otherwise it shows nothing and returns the
    parsed value. *)
Theorem get_ai_diagnosis_contains_failures
    (remote : groq_service) (key pain_points text : string) (w : world) :
  let req := diagnosis_request key pain_points text in
  let r := get_ai_diagnosis remote key pain_points text w in
  session (snd r) = session w /\
  match remote req with
  | create_raises e | loads_raises e =>
      fst r = Ok JNull /\
      shown (snd r)
      = (shown w ++ [groq_request req;
                     st_error ("Error al conectar con Groq o procesar JSON: "
                               ++ exn_str e)])%list
  | loads_returns v =>
      fst r = Ok v /\ shown (snd r) = (shown w ++ [groq_request req])%list
  end.
Proof.
  cbv zeta. unfold get_ai_diagnosis, try_except, bind, emit, lift, ret.
  destruct (remote _) as [e | e | v]; simpl;
    (split; [reflexivity|]); (split; [reflexivity|]);
    now rewrite <- ?app_assoc.
Qed.

(** ** What the dashboard may show *)

Section ShowsOnly.
Variable allowed : ui_event -> bool.

Lemma shows_only_ret {A : Type} (a : A) : shows_only allowed (ret a).
Proof.
  intro w; split; [reflexivity|].
  exists []; split; [now rewrite app_nil_r | reflexivity].
Qed.

Lemma shows_only_lift {A : Type} (r : result A) : shows_only allowed (lift r).
Proof.
  intro w; split; [reflexivity|].
  exists []; split; [now rewrite app_nil_r | reflexivity].
Qed.

Lemma shows_only_emit (e : ui_event) :
  allowed e = true -> shows_only allowed (emit e).
Proof.
  intros He w; split; [reflexivity|].
  exists [e]; split; [reflexivity | now simpl; rewrite He].
Qed.

Lemma shows_only_bind {A B : Type} (m : script A) (k : A -> script B) :
  shows_only allowed m -> (forall a, shows_only allowed (k a)) ->
  shows_only allowed (bind m k).
Proof.
  intros Hm Hk w. unfold bind.
  destruct (Hm w) as [Hs [evs [Hev Hall]]].
  destruct (m w) as [[a | e | what] w1]; simpl in *.
  - destruct (Hk a w1) as [Hs' [evs' [Hev' Hall']]].
    split; [congruence|].
    exists (evs ++ evs')%list. split.
    + now rewrite Hev', Hev, app_assoc.
    + now rewrite forallb_app, Hall, Hall'.
  - split; [assumption | now exists evs].
  - split; [assumption | now exists evs].
Qed.

Lemma shows_only_emit_all (es : list ui_event) :
  forallb allowed es = true -> shows_only allowed (emit_all es).
Proof.
  induction es as [| e es IH]; simpl; intros H.
  - apply shows_only_ret.
  - apply andb_prop in H as [He Hes].
    apply shows_only_bind; [now apply shows_only_emit | intros _; auto].
Qed.

Lemma shows_only_get_processed : shows_only allowed session_get_processed.
Proof.
  intro w; split; [reflexivity|].
  exists []; split; [now rewrite app_nil_r | reflexivity].
Qed.

Lemma shows_only_getitem_diagnosis : shows_only allowed session_getitem_diagnosis.
Proof.
  intro w; unfold session_getitem_diagnosis.
  destruct (diagnosis (session w)); (split; [reflexivity|]);
    (exists []; split; [now rewrite app_nil_r | reflexivity]).
Qed.

End ShowsOnly.

Lemma expanders_are_dashboard_events (rows : list Expert.t) :
  forallb is_dashboard_event (map st_expander rows) = true.
Proof. induction rows; simpl; auto. Qed.

(** One step of a [shows_only] argument about the dashboard. *)
Ltac shows_step :=
  match goal with
  | |- shows_only _ (bind _ _) => apply shows_only_bind; [| intro]
  | |- shows_only _ (ret _) => apply shows_only_ret
  | |- shows_only _ (lift _) => apply shows_only_lift
  | |- shows_only _ (emit _) => apply shows_only_emit; reflexivity
  | |- shows_only _ (emit_all (map st_expander _)) =>
      apply shows_only_emit_all, expanders_are_dashboard_events
  | |- shows_only _ session_get_processed => apply shows_only_get_processed
  | |- shows_only _ session_getitem_diagnosis => apply shows_only_getitem_diagnosis
  | |- shows_only _ (if ?b then _ else _) => destruct b
  | |- shows_only _ (match ?x with _ => _ end) => destruct x
  end.

Lemma dashboard_shows_only experts_db np_random choice :
  shows_only is_dashboard_event (dashboard experts_db np_random choice).
Proof.
  unfold dashboard, summary_metrics, visualizations, radar_chart, plan_table,
    expert_recommendations; cbv zeta; repeat shows_step.
Qed.

Lemma forallb_dashboard_no_message (evs : list ui_event) :
  forallb is_dashboard_event evs = true ->
  existsb is_request evs = false /\ existsb is_error evs = false
  /\ existsb is_warning evs = false.
Proof.
  induction evs as [| e evs IH]; simpl; [auto|].
  intros H. apply andb_prop in H as [He Hes].
  destruct (IH Hes) as [H1 [H2 H3]]. rewrite H1, H2, H3.
  destruct e; try discriminate; auto.
Qed.

Lemma main_without_button remote experts_db np_random key pain_points uploaded_file
    choice w :
  main remote experts_db np_random key pain_points uploaded_file false choice w
  = dashboard experts_db np_random choice w.
Proof. reflexivity. Qed.

(** X5.  A run in which the button is not pressed (the user only changes
    the filter) renders the dashboard and nothing else: it sends no request,
    shows neither a warning nor an error message, and leaves the session
    state as it was, whatever is cached and whatever the dashboard runs
    into. *)
Theorem rerun_without_button_only_renders
    remote experts_db np_random key pain_points uploaded_file choice s0 :
  let w := snd (run (main remote experts_db np_random key pain_points uploaded_file
                       false choice) s0) in
  session w = s0 /\
  existsb is_request (shown w) = false /\
  existsb is_error (shown w) = false /\
  existsb is_warning (shown w) = false.
Proof.
  cbv zeta. unfold run. rewrite main_without_button.
  destruct (dashboard_shows_only experts_db np_random choice
              {| session := s0; shown := [] |}) as [Hs [evs [Hev Hall]]].
  rewrite Hs, Hev. simpl. split; [reflexivity|].
  now apply forallb_dashboard_no_message.
Qed.

(** The dashboard part of a run after the handler, with what it may show. *)
Lemma main_shows_after_handler remote experts_db np_random key pain_points
    uploaded_file choice w :
  let w1 := snd (process_btn_handler remote key pain_points uploaded_file w) in
  let w2 := snd (main remote experts_db np_random key pain_points uploaded_file
                   true choice w) in
  session w2 = session w1 /\
  exists evs, shown w2 = (shown w1 ++ evs)%list /\
              forallb is_dashboard_event evs = true.
Proof.
  unfold main, bind.
  destruct (process_btn_handler remote key pain_points uploaded_file w)
    as [[[] | e | what] w1]; simpl.
  - apply dashboard_shows_only.
  - split; [reflexivity | exists []; now rewrite app_nil_r].
  - split; [reflexivity | exists []; now rewrite app_nil_r].
Qed.

(** X6.  A reply that parses to a false value ([null], [false], 0, an empty
    string, list or object) is dropped without a word: the run shows no error
    and no warning, and both session keys stay as they were. *)
Theorem falsy_reply_is_dropped_silently
    remote experts_db np_random key pain_points uploaded_file choice s0 text v :
  key <> "" -> pain_points <> "" ->
  pdf_text uploaded_file = Ok text ->
  remote (diagnosis_request key pain_points text) = loads_returns v ->
  truthy v = false ->
  let w := snd (run (main remote experts_db np_random key pain_points uploaded_file
                       true choice) s0) in
  session w = s0 /\
  existsb is_error (shown w) = false /\
  existsb is_warning (shown w) = false.
Proof.
  intros Hk Hp Ht Hr Hv. cbv zeta. unfold run.
  set (w0 := {| session := s0; shown := [] |}).
  destruct (main_shows_after_handler remote experts_db np_random key pain_points
              uploaded_file choice w0) as [Hs [evs [Hev Hall]]].
  rewrite Hs, Hev.
  rewrite (handler_request remote key pain_points uploaded_file text w0 Hk Hp Ht).
  rewrite Hr, Hv. simpl.
  destruct (forallb_dashboard_no_message evs Hall) as [_ [H2 H3]]. auto.
Qed.

Lemma falsy_reply_is_dropped_silently_witness :
  let remote : groq_service := fun _ => loads_returns (JObj []) in
  let w := snd (run (main remote demo_db demo_rng "gsk" "ventas" None true 0)
                  (cached example_reply)) in
  "gsk" <> "" /\ "ventas" <> "" /\ pdf_text None = Ok no_pdf_sentinel /\
  remote (diagnosis_request "gsk" "ventas" no_pdf_sentinel) = loads_returns (JObj []) /\
  truthy (JObj []) = false /\
  session w = cached example_reply /\
  existsb is_error (shown w) = false /\
  existsb is_warning (shown w) = false.
Proof.
  cbv zeta.
  assert ("gsk" <> "") as Hk by discriminate.
  assert ("ventas" <> "") as Hp by discriminate.
  split; [exact Hk|]. split; [exact Hp|].
  split; [reflexivity|]. split; [reflexivity|]. split; [reflexivity|].
  exact (falsy_reply_is_dropped_silently (fun _ => loads_returns (JObj [])) demo_db
           demo_rng "gsk" "ventas" None 0 (cached example_reply) no_pdf_sentinel
           (JObj []) Hk Hp eq_refl eq_refl eq_refl).
Defined.

(** X7.  A reply that parses to a true value replaces the cached result as a
    whole, whether or not it matches the schema: after the run both session
    keys are set, to that reply and to [True], whatever they held before. *)
Theorem truthy_reply_replaces_cache
    remote experts_db np_random key pain_points uploaded_file choice s0 text v :
  key <> "" -> pain_points <> "" ->
  pdf_text uploaded_file = Ok text ->
  remote (diagnosis_request key pain_points text) = loads_returns v ->
  truthy v = true ->
  let w := snd (run (main remote experts_db np_random key pain_points uploaded_file
                       true choice) s0) in
  session w = cached v /\ existsb is_error (shown w) = false.
Proof.
  intros Hk Hp Ht Hr Hv. cbv zeta. unfold run.
  set (w0 := {| session := s0; shown := [] |}).
  destruct (main_shows_after_handler remote experts_db np_random key pain_points
              uploaded_file choice w0) as [Hs [evs [Hev Hall]]].
  rewrite Hs, Hev.
  rewrite (handler_request remote key pain_points uploaded_file text w0 Hk Hp Ht).
  rewrite Hr, Hv. simpl.
  destruct (forallb_dashboard_no_message evs Hall) as [_ [H2 _]]. auto.
Qed.

Lemma truthy_reply_replaces_cache_witness :
  let remote : groq_service := fun _ => loads_returns off_schema_reply in
  let w := snd (run (main remote demo_db demo_rng "gsk" "ventas" None true 0)
                  (cached example_reply)) in
  "gsk" <> "" /\ "ventas" <> "" /\ pdf_text None = Ok no_pdf_sentinel /\
  remote (diagnosis_request "gsk" "ventas" no_pdf_sentinel)
  = loads_returns off_schema_reply /\
  truthy off_schema_reply = true /\
  session w = cached off_schema_reply /\ existsb is_error (shown w) = false.
Proof.
  cbv zeta.
  assert ("gsk" <> "") as Hk by discriminate.
  assert ("ventas" <> "") as Hp by discriminate.
  split; [exact Hk|]. split; [exact Hp|].
  split; [reflexivity|]. split; [reflexivity|]. split; [reflexivity|].
  exact (truthy_reply_replaces_cache (fun _ => loads_returns off_schema_reply) demo_db
           demo_rng "gsk" "ventas" None 0 (cached example_reply) no_pdf_sentinel
           off_schema_reply Hk Hp eq_refl eq_refl eq_refl).
Defined.

(** X8.  There is no retry: a run sends exactly one request when the key and
    the needs text are non-empty and the document text is available, whatever
    the remote service answers, and none otherwise. *)
Theorem one_request_per_run_at_most
    remote experts_db np_random key pain_points uploaded_file choice s0 :
  count_requests
    (shown (snd (run (main remote experts_db np_random key pain_points uploaded_file
                        true choice) s0)))
  = if negb (key =? "") && negb (pain_points =? "") && is_ok (pdf_text uploaded_file)
    then 1 else 0.
Proof.
  unfold run, count_requests.
  set (w0 := {| session := s0; shown := [] |}).
  destruct (main_shows_after_handler remote experts_db np_random key pain_points
              uploaded_file choice w0) as [_ [evs [Hev Hall]]].
  rewrite Hev, filter_app, length_app.
  assert (List.length (filter is_request evs) = 0) as ->.
  { clear Hev. induction evs as [| e evs IH]; [reflexivity|].
    simpl in Hall. apply andb_prop in Hall as [He Hes].
    simpl. destruct e; try discriminate; simpl; auto. }
  rewrite Nat.add_0_r.
  destruct (String.eqb_spec key "") as [-> | Hk].
  { now rewrite handler_missing_key. }
  destruct (String.eqb_spec pain_points "") as [-> | Hp].
  { now rewrite handler_missing_needs. }
  destruct (pdf_text uploaded_file) as [text | e | what] eqn:Ht.
  - rewrite (handler_request remote key pain_points uploaded_file text w0 Hk Hp Ht).
    destruct (remote _) as [e | e | v]; [| | destruct (truthy v)]; reflexivity.
  - rewrite handler_no_text; [reflexivity | assumption | assumption |].
    intros t; rewrite Ht; discriminate.
  - rewrite handler_no_text; [reflexivity | assumption | assumption |].
    intros t; rewrite Ht; discriminate.
Qed.

(** ** The session across runs *)

Lemma handler_session remote key pain_points uploaded_file w :
  let s := session (snd (process_btn_handler remote key pain_points uploaded_file w)) in
  s = session w \/ exists v, truthy v = true /\ s = cached v.
Proof.
  cbv zeta.
  destruct (String.eqb_spec key "") as [-> | Hk].
  { rewrite handler_missing_key. now left. }
  destruct (String.eqb_spec pain_points "") as [-> | Hp].
  { rewrite handler_missing_needs by assumption. now left. }
  destruct (pdf_text uploaded_file) as [text | e | what] eqn:Ht.
  - rewrite (handler_request remote key pain_points uploaded_file text w Hk Hp Ht).
    destruct (remote _) as [e | e | v]; [now left | now left |].
    destruct (truthy v) eqn:Hv; [right; now exists v | now left].
  - rewrite handler_no_text; [now left | assumption | assumption |].
    intros t; rewrite Ht; discriminate.
  - rewrite handler_no_text; [now left | assumption | assumption |].
    intros t; rewrite Ht; discriminate.
Qed.

Lemma session_after_run_cases experts_db s i :
  session_after_run experts_db s i = s \/
  exists v, truthy v = true /\ session_after_run experts_db s i = cached v.
Proof.
  unfold session_after_run, run.
  set (w0 := {| session := s; shown := [] |}).
  destruct (i_process_btn i).
  - destruct (main_shows_after_handler (i_remote i) experts_db (i_np_random i)
                (i_groq_api_key i) (i_pain_points i) (i_uploaded_file i)
                (i_choice i) w0) as [Hs _].
    rewrite Hs. apply (handler_session _ _ _ _ w0).
  - left. rewrite main_without_button.
    apply (proj1 (dashboard_shows_only experts_db (i_np_random i) (i_choice i) w0)).
Qed.

(** X9.  Over any sequence of runs that starts with an empty session, the
    two session keys move together: either neither is set, or ['processed']
    is [True] and ['diagnosis'] holds a reply with a true value.  So the
    lookup of ['diagnosis'] at the top of the dashboard cannot fail. *)
Theorem session_keys_move_together experts_db (runs : list interaction) :
  let s := session_after experts_db fresh_session runs in
  session_reachable s /\
  (processed s = Some true -> exists v, diagnosis s = Some v /\ truthy v = true) /\
  processed s <> Some false.
Proof.
  cbv zeta.
  assert (forall s0, session_reachable s0 ->
                     session_reachable (session_after experts_db s0 runs)) as Hinv.
  { induction runs as [| i runs IH]; intros s0 H0; simpl; [assumption|].
    apply IH.
    destruct (session_after_run_cases experts_db s0 i) as [-> | [v [Hv ->]]];
      [assumption | right; now exists v]. }
  assert (session_reachable (session_after experts_db fresh_session runs)) as Hr
    by (apply Hinv; now left).
  split; [exact Hr|].
  destruct Hr as [-> | [v [Hv ->]]]; simpl.
  - split; [discriminate | discriminate].
  - split; [intros _; now exists v | discriminate].
Qed.

(** ** Identifiers of the generated rows *)

Lemma generate_rows_ids (range : list nat) :
  forall g f,
    map Expert.id (generate_rows range g f)
    = map (fun i => "EXP-" ++ str_of_nat (i + 100)) range.
Proof.
  induction range as [| i rest IH]; intros g f; [reflexivity|].
  cbn [generate_rows].
  destruct (fake_name f) as [nm f1].
  destruct (random_choice specialties g) as [sp g1].
  destruct (random_uniform 3.5 5.0 g1) as [u g2].
  destruct (random_randint 50 200 g2) as [rate g3].
  destruct (fake_email f1) as [mail f2].
  cbn [map Expert.id]. now rewrite IH.
Qed.

(** X10.  Whatever the random draws and whatever Faker returns, the rows
    carry the identifiers EXP-100 to EXP-114 in this order, so no two rows
    share an identifier (the identifier is the key of the schedule button). *)
Theorem mock_database_ids_are_fixed_and_distinct (g : rng) (f : faker) :
  map Expert.id (generate_mock_database g f) = expert_ids /\
  NoDup (map Expert.id (generate_mock_database g f)).
Proof.
  assert (map Expert.id (generate_mock_database g f) = expert_ids) as H.
  { unfold generate_mock_database. rewrite generate_rows_ids. reflexivity. }
  split; [exact H|]. rewrite H. unfold expert_ids.
  repeat (constructor; [simpl; intuition discriminate|]). constructor.
Qed.

(** ** The average severity of a well-formed reply *)

Lemma gap_entry_severity (d : json) :
  is_gap_entry d = true ->
  exists q, py_getitem d "severity" = Ok (JNum q) /\ (1 <= q)%Q /\ (q <= 10)%Q.
Proof.
  unfold is_gap_entry, field_is, py_getitem.
  destruct d as [| | | | | fields]; try discriminate.
  intros H. apply andb_prop in H as [H _]. apply andb_prop in H as [_ H].
  destruct (assoc "severity" fields) as [[| | q | | |]|]; try discriminate.
  simpl in H. apply andb_prop in H as [H1 H2].
  apply Qle_bool_iff in H1, H2. now exists q.
Qed.

Lemma sum_severity_bounds (items : list json) :
  forallb is_gap_entry items = true ->
  forall acc, exists total,
    sum_severity acc items = Ok total /\
    (acc + inject_Z (Z.of_nat (List.length items)) <= total)%Q /\
    (total <= acc + 10 * inject_Z (Z.of_nat (List.length items)))%Q.
Proof.
  induction items as [| d items IH]; intros Hall acc.
  - exists acc. split; [reflexivity|].
    change (inject_Z (Z.of_nat (List.length (@nil json)))) with 0%Q. split; lra.
  - cbn [forallb] in Hall. apply andb_prop in Hall as [Hd Hall].
    destruct (gap_entry_severity d Hd) as [q [Hq [H1 H10]]].
    destruct (IH Hall (acc + q)%Q) as [total [Ht [Hlo Hhi]]].
    exists total. cbn [sum_severity]. rewrite Hq. cbn [rbind py_number].
    split; [exact Ht|].
    replace (Z.of_nat (List.length (d :: items)))
      with (Z.of_nat (List.length items) + 1)%Z by (cbn [List.length]; lia).
    rewrite inject_Z_plus.
    generalize dependent (inject_Z (Z.of_nat (List.length items))). intros n Hlo Hhi.
    change (inject_Z 1) with 1%Q. split; lra.
Qed.

Lemma matches_schema_gaps (data : json) :
  matches_schema data = true ->
  py_getitem data "identified_gaps" = Ok (JArr (reply_list "identified_gaps" data)) /\
  forallb is_gap_entry (reply_list "identified_gaps" data) = true.
Proof.
  unfold matches_schema, reply_list, field_is, py_getitem, is_list_of.
  destruct data as [| | | | | fields]; try discriminate.
  intros H. repeat (apply andb_prop in H as [H ?]).
  destruct (assoc "identified_gaps" fields) as [[]|]; try discriminate.
  split; [reflexivity | assumption].
Qed.

Lemma average_severity_of_gaps (data : json) (gaps : list json) :
  py_getitem data "identified_gaps" = Ok (JArr gaps) ->
  forallb is_gap_entry gaps = true ->
  gaps <> [] ->
  exists avg, average_severity data = Ok avg /\
              (1 <= avg)%Q /\ (avg <= 10)%Q /\ exists k : Z, avg = (k # 10)%Q.
Proof.
  intros Hg Hall Hne.
  destruct (sum_severity_bounds gaps Hall 0%Q) as [total [Ht [Hlo Hhi]]].
  unfold average_severity. rewrite Hg. cbn [rbind py_iter py_len]. rewrite Ht.
  cbn [rbind]. unfold py_truediv.
  assert (0 < Z.of_nat (List.length gaps))%Z as Hpos
    by (destruct gaps; [contradiction | simpl; lia]).
  destruct (Z.eqb_spec (Z.of_nat (List.length gaps)) 0) as [E | _]; [lia|].
  cbn [rbind].
  assert (0 < inject_Z (Z.of_nat (List.length gaps)))%Q as Hn.
  { change 0%Q with (inject_Z 0). now rewrite <- Zlt_Qlt. }
  set (n := inject_Z (Z.of_nat (List.length gaps))) in *.
  assert (1 <= total / n)%Q as Hmlo.
  { apply Qle_shift_div_l; [assumption | lra]. }
  assert (total / n <= 10)%Q as Hmhi.
  { apply Qle_shift_div_r; [assumption | lra]. }
  assert (10 <= round_half_even (total / n * 10) <= 100)%Z as [Hrlo Hrhi].
  { apply round_half_even_between.
    - change (inject_Z 10) with 10%Q. lra.
    - change (inject_Z 100) with 100%Q. lra. }
  exists (py_round1 (total / n)). split; [reflexivity|].
  unfold py_round1. repeat split.
  - unfold Qle; simpl. lia.
  - unfold Qle; simpl. lia.
  - eexists; reflexivity.
Qed.

(** X11.  For a cached reply that matches the schema and has at least one
    gap, the third metric is computed without error, is a whole number of
    tenths, and lies on the severity scale from 1 to 10. *)
Theorem average_severity_stays_on_scale (data : json) :
  matches_schema data = true ->
  reply_list "identified_gaps" data <> [] ->
  exists avg, average_severity data = Ok avg /\
              (1 <= avg)%Q /\ (avg <= 10)%Q /\ exists k : Z, avg = (k # 10)%Q.
Proof.
  intros Hs Hne.
  destruct (matches_schema_gaps data Hs) as [Hg Hall].
  now apply (average_severity_of_gaps data (reply_list "identified_gaps" data)).
Qed.

Lemma average_severity_stays_on_scale_witness :
  matches_schema example_reply = true /\
  reply_list "identified_gaps" example_reply <> [] /\
  exists avg, average_severity example_reply = Ok avg /\
              (1 <= avg)%Q /\ (avg <= 10)%Q /\ exists k : Z, avg = (k # 10)%Q.
Proof.
  assert (reply_list "identified_gaps" example_reply <> []) as Hne
    by (vm_compute; discriminate).
  split; [reflexivity|]. split; [exact Hne|].
  exact (average_severity_stays_on_scale example_reply eq_refl Hne).
Defined.

(** ** The expert list is never empty *)

Lemma rows_nonempty_subset {A : Type} (db selection rows : list A) (n : nat) :
  0 < n ->
  (forall x, In x selection -> In x db) ->
  (selection <> [] /\ rows = selection) \/
  (selection = [] /\ List.length rows = n /\
   exists rest, Permutation (rows ++ rest)%list db) ->
  rows <> [] /\ incl rows db.
Proof.
  intros Hn Hsel [[Hne ->] | [_ [Hlen [rest Hperm]]]].
  - split; [assumption | exact Hsel].
  - split; [destruct rows; [simpl in Hlen; lia | discriminate]|].
    intros x Hx. apply (Permutation_in x Hperm). apply in_or_app. now left.
Qed.

(** X12.  With the selection "Todos" the expert list is never empty and
    holds rows of the directory only: for every generated directory, every
    list of recommended specialties and every draw of the sample. *)
Theorem all_filter_never_empty
    (g : rng) (f : faker) (np_random : rng) (recs : list string) :
  let experts_db := generate_mock_database g f in
  exists rows,
    filtered_experts experts_db np_random (map JStr recs) (JStr "Todos") = Ok rows /\
    rows <> [] /\ incl rows experts_db.
Proof.
  cbv zeta.
  destruct (all_filter_on_any_directory (generate_mock_database g f) np_random recs)
    as [rows [Hrows Hcases]]; [rewrite mock_database_length; lia|].
  exists rows. split; [exact Hrows|].
  apply (rows_nonempty_subset _ _ _ 5 ltac:(lia) (fun x H => proj1 (proj1 (filter_In _ _ _) H)) Hcases).
Qed.

Lemma specialties_are_ascii : forallb is_ascii_text specialties = true.
Proof. reflexivity. Qed.

Lemma mock_database_specialties_ascii (g : rng) (f : faker) :
  forallb is_ascii_text (map Expert.specialty (generate_mock_database g f)) = true.
Proof.
  apply forallb_forall. intros s Hs.
  apply in_map_iff in Hs as [e [<- He]].
  destruct (generate_rows_shape (seq 0 15) g f) as [_ Hall].
  rewrite Forall_forall in Hall. destruct (Hall e He) as [Hsp _].
  exact (proj1 (forallb_forall _ _) specialties_are_ascii _ Hsp).
Qed.

(** X13.  With a specific choice that compiles as a pattern, the expert list
    is never empty and holds rows of the directory only: the rows with a
    match, in directory order, or three sampled rows. *)
Theorem specific_filter_never_empty
    (g : rng) (f : faker) (np_random : rng) (recs : list json)
    (chosen : string) (r : regex) :
  chosen <> "Todos" -> re_compile chosen = Ok r ->
  let experts_db := generate_mock_database g f in
  exists rows,
    filtered_experts experts_db np_random recs (JStr chosen) = Ok rows /\
    rows <> [] /\ incl rows experts_db.
Proof.
  intros Hne Hr. cbv zeta.
  destruct (specific_filter_is_regex_search (generate_mock_database g f) np_random
              recs chosen r Hne Hr (mock_database_specialties_ascii g f))
    as [rows [Hrows Hcases]]; [rewrite mock_database_length; lia|].
  exists rows. split; [exact Hrows|].
  apply (rows_nonempty_subset _ _ _ 3 ltac:(lia) (fun x H => proj1 (proj1 (filter_In _ _ _) H)) Hcases).
Qed.

Lemma specific_filter_never_empty_witness :
  "Python (Data)?" <> "Todos" /\
  (exists r, re_compile "Python (Data)?" = Ok r) /\
  exists rows,
    filtered_experts demo_db demo_rng [] (JStr "Python (Data)?") = Ok rows /\
    rows <> [] /\ incl rows demo_db.
Proof.
  assert ("Python (Data)?" <> "Todos") as Hne by discriminate.
  split; [exact Hne|]. split; [eexists; vm_compute; reflexivity|].
  exact (specific_filter_never_empty demo_rng demo_faker demo_rng [] "Python (Data)?"
           _ Hne eq_refl).
Defined.

Lemma no_recommended_specialty (db : list Expert.t) (recs : list string) :
  Forall expert_ok db ->
  (forall r, In r recs -> ~ In r specialties) ->
  filter (recommended recs) db = [].
Proof.
  intros Hall Hdisj. induction Hall as [| e db He _ IH]; [reflexivity|].
  cbn [filter].
  assert (recommended recs e = false) as ->; [| exact IH].
  destruct (recommended recs e) eqn:E; [| reflexivity].
  apply existsb_exists in E as [r [Hin Heq]]. apply String.eqb_eq in Heq.
  exfalso. apply (Hdisj r Hin). rewrite <- Heq. exact (proj1 He).
Qed.

(** X14.  The selection "Todos" compares whole strings, case included: when
    none of the recommended specialties is literally one of the six
    specialties of the generator, nothing is selected and the list shown is a
    sample of five rows of the directory. *)
Theorem all_filter_needs_exact_specialty
    (g : rng) (f : faker) (np_random : rng) (recs : list string) :
  (forall r, In r recs -> ~ In r specialties) ->
  let experts_db := generate_mock_database g f in
  exists rows,
    filtered_experts experts_db np_random (map JStr recs) (JStr "Todos") = Ok rows /\
    List.length rows = 5 /\
    exists rest, Permutation (rows ++ rest)%list experts_db.
Proof.
  intros Hdisj. cbv zeta.
  destruct (all_filter_on_any_directory (generate_mock_database g f) np_random recs)
    as [rows [Hrows Hcases]]; [rewrite mock_database_length; lia|].
  exists rows. split; [exact Hrows|].
  destruct Hcases as [[Hne _] | [_ H]]; [| exact H].
  exfalso. apply Hne. apply no_recommended_specialty; [| assumption].
  exact (proj2 (generate_rows_shape (seq 0 15) g f)).
Qed.

Lemma all_filter_needs_exact_specialty_witness :
  (forall r, In r ["liderazgo"; "Data Science"] -> ~ In r specialties) /\
  exists rows,
    filtered_experts demo_db demo_rng (map JStr ["liderazgo"; "Data Science"])
      (JStr "Todos") = Ok rows /\
    List.length rows = 5 /\
    exists rest, Permutation (rows ++ rest)%list demo_db.
Proof.
  assert (forall r, In r ["liderazgo"; "Data Science"] -> ~ In r specialties) as H.
  { intros r [<- | [<- | []]]; simpl; intuition discriminate. }
  split; [exact H|].
  exact (all_filter_needs_exact_specialty demo_rng demo_faker demo_rng
           ["liderazgo"; "Data Science"] H).
Defined.

(** ** The dashboard of a well-formed reply *)

Lemma bind_ok {A B : Type} (m : script A) (k : A -> script B) (w w' : world) (a : A) :
  m w = (Ok a, w') -> bind m k w = k a w'.
Proof. intros H. unfold bind. now rewrite H. Qed.

Lemma append_shown_app (w : world) (a b : list ui_event) :
  append_shown (append_shown w a) b = append_shown w (a ++ b)%list.
Proof. unfold append_shown. simpl. now rewrite app_assoc. Qed.

Lemma emit_all_run (es : list ui_event) :
  forall w, emit_all es w = (Ok tt, append_shown w es).
Proof.
  induction es as [| e es IH]; intros w; cbn [emit_all].
  - unfold ret, append_shown. rewrite app_nil_r. now destruct w.
  - rewrite bind_emit, IH, append_shown_app. reflexivity.
Qed.

Lemma all_strings (l : list json) :
  forallb is_str l = true -> exists strs, l = map JStr strs.
Proof.
  induction l as [| v l IH]; intros H; [now exists []|].
  cbn [forallb] in H. apply andb_prop in H as [Hv Hl].
  destruct (IH Hl) as [strs ->].
  destruct v; try discriminate. now exists (s :: strs).
Qed.

Lemma gap_entries_have_columns (items : list json) :
  forallb is_gap_entry items = true ->
  forallb (has_key "gap") items && forallb (has_key "severity") items = true.
Proof.
  induction items as [| d items IH]; [reflexivity|].
  cbn [forallb]. intros H. apply andb_prop in H as [Hd Hl].
  apply IH in Hl. apply andb_prop in Hl as [-> ->].
  unfold is_gap_entry, field_is in Hd. unfold has_key.
  destruct d as [| | | | | fields]; try discriminate.
  apply andb_prop in Hd as [Hd _]. apply andb_prop in Hd as [Hg Hs].
  destruct (assoc "gap" fields); [| discriminate].
  destruct (assoc "severity" fields); [| discriminate]. reflexivity.
Qed.

Lemma plan_modules_are_objects (items : list json) :
  forallb is_plan_module items = true -> forallb is_obj items = true.
Proof.
  induction items as [| d items IH]; [reflexivity|].
  cbn [forallb]. intros H. apply andb_prop in H as [Hd Hl].
  rewrite (IH Hl). unfold is_plan_module, field_is in Hd.
  destruct d; try discriminate. reflexivity.
Qed.

(** The four fields of a reply that matches the schema. *)
Lemma matches_schema_fields (data : json) :
  matches_schema data = true ->
  exists summary recs,
    py_getitem data "diagnosis_summary" = Ok (JStr summary) /\
    py_getitem data "identified_gaps" = Ok (JArr (reply_list "identified_gaps" data)) /\
    forallb is_gap_entry (reply_list "identified_gaps" data) = true /\
    py_getitem data "recommended_plan" = Ok (JArr (reply_list "recommended_plan" data)) /\
    forallb is_plan_module (reply_list "recommended_plan" data) = true /\
    py_get data "recommended_specialties" (JArr []) = Ok (JArr (map JStr recs)).
Proof.
  unfold matches_schema, reply_list, field_is, py_getitem, py_get, is_list_of.
  destruct data as [| | | | | fields]; try discriminate.
  intros H. repeat (apply andb_prop in H as [H ?]).
  destruct (assoc "diagnosis_summary" fields) as [[| | | summary | |]|];
    try discriminate.
  destruct (assoc "identified_gaps" fields) as [[]|]; try discriminate.
  destruct (assoc "recommended_plan" fields) as [[]|]; try discriminate.
  destruct (assoc "recommended_specialties" fields) as [[| | | | recs |]|];
    try discriminate.
  destruct (all_strings recs) as [strs ->]; [assumption|].
  exists summary, strs. repeat split; assumption.
Qed.

Lemma emit_run (e : ui_event) (w : world) :
  emit e w = (Ok tt, append_shown w [e]).
Proof. reflexivity. Qed.

Lemma summary_metrics_run (data summary : json) (gaps plan : list json) (avg : Q) w :
  py_getitem data "identified_gaps" = Ok (JArr gaps) ->
  py_getitem data "recommended_plan" = Ok (JArr plan) ->
  average_severity data = Ok avg ->
  py_getitem data "diagnosis_summary" = Ok summary ->
  summary_metrics data w
  = (Ok tt,
     append_shown w
       [st_metric "Brechas Identificadas" (MInt (Z.of_nat (List.length gaps)));
        st_metric "Módulos Sugeridos" (MInt (Z.of_nat (List.length plan)));
        st_metric "Severidad Promedio" (MFloat avg);
        st_info "**Diagnóstico:** " summary]).
Proof.
  intros Hg Hp Havg Hsum. unfold summary_metrics. rewrite Hg, Hp, Havg, Hsum.
  repeat (script_step; cbn [py_len]).
  rewrite emit_run, !append_shown_app. reflexivity.
Qed.

Lemma visualizations_run (data : json) (gaps plan : list json) w :
  py_getitem data "identified_gaps" = Ok (JArr gaps) ->
  forallb is_gap_entry gaps = true -> gaps <> [] ->
  py_getitem data "recommended_plan" = Ok (JArr plan) ->
  forallb is_plan_module plan = true ->
  visualizations data w
  = (Ok tt,
     append_shown w
       [st_markdown "#### Mapa de Brechas (Radar)"; st_plotly_chart gaps;
        st_markdown "#### Plan de Formación Sugerido"; st_dataframe plan]).
Proof.
  intros Hg Hgall Hne Hp Hpall. unfold visualizations. rewrite Hg, Hp.
  repeat script_step. unfold radar_chart.
  rewrite (gap_entries_have_columns _ Hgall).
  destruct gaps as [| g0 gaps]; [contradiction|]. cbn [is_nil].
  repeat script_step. unfold plan_table.
  rewrite (plan_modules_are_objects _ Hpall).
  rewrite emit_run, !append_shown_app. reflexivity.
Qed.

Lemma expert_recommendations_run (data : json) (recs : list json)
    (experts_db rows : list Expert.t) (np_random : rng) w :
  py_get data "recommended_specialties" (JArr []) = Ok (JArr recs) ->
  filtered_experts experts_db np_random recs (JStr "Todos") = Ok rows ->
  expert_recommendations data experts_db np_random 0 w
  = (Ok tt,
     append_shown w
       ([st_markdown "---";
         st_subheader "3. Expertos Recomendados & Agendamiento";
         st_selectbox "Filtrar Expertos por Especialidad Sugerida:"
           (JStr "Todos" :: recs)]
        ++ map st_expander rows)%list).
Proof.
  intros Hrec Hrows. unfold expert_recommendations. rewrite Hrec. cbv zeta.
  repeat script_step. cbn [nth]. rewrite Hrows. script_step.
  rewrite emit_all_run, !append_shown_app. reflexivity.
Qed.

(** X15.  For a cached reply that matches the schema and has at least one
    gap, under the default selection, the dashboard runs to its end without
    an exception and shows, in this order: the two headers, the three
    metrics (the two list lengths and an average that is a whole number of
    tenths between 1 and 10), the summary, the radar chart of the gaps, the
    table of the plan, the select box with "Todos" followed by the
    recommended specialties, and one card for each row of a non-empty list of
    rows of the directory. *)
Theorem well_formed_reply_renders_completely
    (g : rng) (f : faker) (np_random : rng) (data : json) :
  matches_schema data = true ->
  reply_list "identified_gaps" data <> [] ->
  let experts_db := generate_mock_database g f in
  let gaps := reply_list "identified_gaps" data in
  let plan := reply_list "recommended_plan" data in
  exists summary recs avg rows,
    py_getitem data "diagnosis_summary" = Ok summary /\
    reply_list "recommended_specialties" data = recs /\
    ((1 <= avg)%Q /\ (avg <= 10)%Q /\ exists k : Z, avg = (k # 10)%Q) /\
    rows <> [] /\ incl rows experts_db /\
    run (dashboard experts_db np_random 0) (cached data)
    = (Ok tt,
       {| session := cached data;
          shown :=
            ([st_markdown "---";
              st_subheader "2. Dashboard de Resultados";
              st_metric "Brechas Identificadas" (MInt (Z.of_nat (List.length gaps)));
              st_metric "Módulos Sugeridos" (MInt (Z.of_nat (List.length plan)));
              st_metric "Severidad Promedio" (MFloat avg);
              st_info "**Diagnóstico:** " summary;
              st_markdown "#### Mapa de Brechas (Radar)";
              st_plotly_chart gaps;
              st_markdown "#### Plan de Formación Sugerido";
              st_dataframe plan;
              st_markdown "---";
              st_subheader "3. Expertos Recomendados & Agendamiento";
              st_selectbox "Filtrar Expertos por Especialidad Sugerida:"
                (JStr "Todos" :: recs)]
             ++ map st_expander rows)%list |}).
Proof.
  intros Hs Hne. cbv zeta.
  destruct (matches_schema_fields data Hs)
    as [summary [recs [Hsum [Hg [Hgall [Hp [Hpall Hrec]]]]]]].
  destruct (average_severity_of_gaps data _ Hg Hgall Hne) as [avg [Havg Hscale]].
  destruct (all_filter_on_any_directory (generate_mock_database g f) np_random recs)
    as [rows [Hrows Hcases]]; [rewrite mock_database_length; lia|].
  destruct (rows_nonempty_subset _ _ _ 5 ltac:(lia)
              (fun x H => proj1 (proj1 (filter_In _ _ _) H)) Hcases) as [Hrne Hincl].
  exists (JStr summary), (map JStr recs), avg, rows.
  split; [exact Hsum|].
  split.
  { unfold reply_list. unfold py_get in Hrec. unfold py_getitem.
    destruct data as [| | | | | fields]; try discriminate.
    destruct (assoc "recommended_specialties" fields) as [x|] eqn:E.
    - now inversion Hrec.
    - exfalso. unfold matches_schema, field_is in Hs. rewrite E in Hs.
      now rewrite andb_false_r in Hs. }
  split; [exact Hscale|]. split; [exact Hrne|]. split; [exact Hincl|].
  unfold run, dashboard.
  rewrite bind_get_processed_cached, bind_getitem_diagnosis_cached.
  do 2 script_step.
  rewrite (bind_ok _ _ _ _ _ (summary_metrics_run data (JStr summary) _ _ avg _
                                 Hg Hp Havg Hsum)).
  rewrite (bind_ok _ _ _ _ _ (visualizations_run data _ _ _ Hg Hgall Hne Hp Hpall)).
  rewrite (expert_recommendations_run data _ _ rows _ _ Hrec Hrows).
  rewrite !append_shown_app. reflexivity.
Qed.

Lemma well_formed_reply_renders_completely_witness :
  matches_schema example_reply = true /\
  reply_list "identified_gaps" example_reply <> [] /\
  exists summary recs avg rows,
    py_getitem example_reply "diagnosis_summary" = Ok summary /\
    reply_list "recommended_specialties" example_reply = recs /\
    ((1 <= avg)%Q /\ (avg <= 10)%Q /\ exists k : Z, avg = (k # 10)%Q) /\
    rows <> [] /\ incl rows demo_db /\
    run (dashboard demo_db demo_rng 0) (cached example_reply)
    = (Ok tt,
       {| session := cached example_reply;
          shown :=
            ([st_markdown "---";
              st_subheader "2. Dashboard de Resultados";
              st_metric "Brechas Identificadas"
                (MInt (Z.of_nat (List.length (reply_list "identified_gaps" example_reply))));
              st_metric "Módulos Sugeridos"
                (MInt (Z.of_nat (List.length (reply_list "recommended_plan" example_reply))));
              st_metric "Severidad Promedio" (MFloat avg);
              st_info "**Diagnóstico:** " summary;
              st_markdown "#### Mapa de Brechas (Radar)";
              st_plotly_chart (reply_list "identified_gaps" example_reply);
              st_markdown "#### Plan de Formación Sugerido";
              st_dataframe (reply_list "recommended_plan" example_reply);
              st_markdown "---";
              st_subheader "3. Expertos Recomendados & Agendamiento";
              st_selectbox "Filtrar Expertos por Especialidad Sugerida:"
                (JStr "Todos" :: recs)]
             ++ map st_expander rows)%list |}).
Proof.
  assert (reply_list "identified_gaps" example_reply <> []) as Hne
    by (vm_compute; discriminate).
  split; [reflexivity|]. split; [exact Hne|].
  exact (well_formed_reply_renders_completely demo_rng demo_faker demo_rng
           example_reply eq_refl Hne).
Defined.

(** ** Ill-formed gap entries *)

Lemma sum_severity_well_formed_prefix (pre : list json) :
  forallb is_gap_entry pre = true ->
  forall acc l, exists total,
    sum_severity acc (pre ++ l)%list = sum_severity total l.
Proof.
  induction pre as [| d pre IH]; intros Hall acc l.
  - now exists acc.
  - cbn [forallb] in Hall. apply andb_prop in Hall as [Hd Hall].
    destruct (gap_entry_severity d Hd) as [q [Hq _]].
    destruct (IH Hall (acc + q)%Q l) as [total Ht].
    exists total. cbn [app sum_severity]. rewrite Hq. cbn [rbind py_number].
    exact Ht.
Qed.

(** X16.  The average is computed entry by entry with no check: the first
    gap entry whose severity cannot be read as a number ends the dashboard
    with the exception of that entry ([KeyError] when the key is absent,
    [TypeError] when the value is a string, a list, an object or [null]),
    whatever the later entries hold. *)
Theorem first_ill_formed_gap_ends_dashboard
    (data : json) (pre : list json) (d : json) (rest : list json) (e : py_exn) w :
  py_getitem data "identified_gaps" = Ok (JArr (pre ++ d :: rest)%list) ->
  forallb is_gap_entry pre = true ->
  rbind (py_getitem d "severity") py_number = Raise e ->
  average_severity data = Raise e /\
  (forall plan, py_getitem data "recommended_plan" = Ok (JArr plan) ->
                fst (summary_metrics data w) = Raise e).
Proof.
  intros Hg Hpre Hd.
  assert (average_severity data = Raise e) as Havg.
  { unfold average_severity. rewrite Hg. cbn [rbind py_iter].
    destruct (sum_severity_well_formed_prefix pre Hpre 0%Q (d :: rest)) as [total ->].
    cbn [sum_severity]. unfold rbind in Hd.
    destruct (py_getitem d "severity") as [v | e' | what]; cbn [rbind].
    - rewrite Hd. reflexivity.
    - now inversion Hd.
    - discriminate. }
  split; [exact Havg|].
  intros plan Hp. unfold summary_metrics. rewrite Hg, Hp, Havg.
  repeat (script_step; cbn [py_len]). reflexivity.
Qed.

Lemma first_ill_formed_gap_ends_dashboard_witness :
  let good := JObj [("gap", JStr "Liderazgo"); ("severity", JNum 8);
                    ("category", JStr "Blanda")] in
  let bad := JObj [("gap", JStr "Ventas"); ("severity", JStr "7");
                   ("category", JStr "Tecnica")] in
  let data := JObj [("diagnosis_summary", JStr "...");
                    ("identified_gaps", JArr [good; bad; good]);
                    ("recommended_plan", JArr []);
                    ("recommended_specialties", JArr [])] in
  let e := TypeError "unsupported operand type(s) for +" in
  py_getitem data "identified_gaps" = Ok (JArr ([good] ++ bad :: [good])%list) /\
  forallb is_gap_entry [good] = true /\
  rbind (py_getitem bad "severity") py_number = Raise e /\
  average_severity data = Raise e /\
  (forall plan, py_getitem data "recommended_plan" = Ok (JArr plan) ->
                fst (summary_metrics data {| session := cached data; shown := [] |})
                = Raise e).
Proof.
  intros good bad data e.
  split; [reflexivity|]. split; [reflexivity|]. split; [reflexivity|].
  apply (first_ill_formed_gap_ends_dashboard data [good] bad [good] e
           {| session := cached data; shown := [] |}); reflexivity.
Defined.

(** ** An uploaded document in the request *)

(** X17.  With a document uploaded, the handler never uses the sentinel: the
    request is built from the joined page texts, and from the empty text when
    the document has no page or no text. *)
Theorem uploaded_document_text_is_sent
    remote experts_db np_random key pain_points (texts : list string) choice s0 :
  key <> "" -> pain_points <> "" ->
  let file := pages (map Ok texts) in
  let w := snd (run (main remote experts_db np_random key pain_points (Some file)
                       true choice) s0) in
  forall req, In (groq_request req) (shown w) <->
              req = diagnosis_request key pain_points
                      (fold_right String.append "" texts).
Proof.
  intros Hk Hp. cbv zeta.
  assert (pdf_text (Some (pages (map Ok texts)))
          = Ok (fold_right String.append "" texts)) as Ht.
  { unfold pdf_text. simpl. now rewrite concat_pages_all_ok. }
  intros req. split.
  - intros Hin.
    destruct (request_in_run _ _ _ _ _ _ _ _ _ Hin) as [_ [_ [text [Ht' ->]]]].
    rewrite Ht in Ht'. now inversion Ht'.
  - intros ->. now apply request_sent_when_inputs_present.
Qed.

Lemma uploaded_document_text_is_sent_witness :
  "gsk" <> "" /\ "ventas" <> "" /\
  let w := snd (run (main failing_service demo_db demo_rng "gsk" "ventas"
                       (Some (pages (map Ok []))) true 0) fresh_session) in
  forall req, In (groq_request req) (shown w) <->
              req = diagnosis_request "gsk" "ventas" "".
Proof.
  split; [discriminate|]. split; [discriminate|].
  apply (uploaded_document_text_is_sent failing_service demo_db demo_rng
           "gsk" "ventas" [] 0 fresh_session); discriminate.
Defined.
